(** * ReceiptManager: channel lifecycle and query settlement

    A shallow embedding of [packages/indexer-service/src/receipt-manager.ts].

    The class keeps a cache of channel results ([cachedState]) and talks to a
    state-channel wallet.  The cache is a plain object used as a dictionary,
    and is modelled as one: its own properties and its prototype.  Every
    method is asynchronous and may reject; a rejection does not undo the
    writes that happened before it.  The methods
    are therefore embedded in a monad that threads the manager through the
    run and returns it next to the outcome, whether the run returned or
    threw.  The wallet, [computeNextState] and [calculateChannelId] come from
    other packages: the first is an interface with its own state, the other
    two are pure functions, and all the theorems hold for every
    implementation of them. *)

From stdpp Require Import gmap strings list fin_maps.
From Stdlib Require Import NArith.

Open Scope string_scope.

(** ** Data model *)

(** [ChannelStatus] of the client API schema. *)
Inductive ChannelStatus :=
| proposed | opening | funding | running
| challenging | responding | closing | closed.

Definition ChannelStatus_eqb (a b : ChannelStatus) : bool :=
  match a, b with
  | proposed, proposed | opening, opening | funding, funding
  | running, running | challenging, challenging | responding, responding
  | closing, closing | closed, closed => true
  | _, _ => false
  end.

(** Amounts are unsigned 256-bit quantities written in hexadecimal; the
    source only handles them through [BN], which computes on unbounded
    big numbers, so an amount is an [N]. *)
Record AllocationItem := { destination : string; amount : N }.
Record Allocation := { token : string; allocationItems : list AllocationItem }.

Record ChannelResult := {
  channelId : string;
  status : ChannelStatus;
  allocations : list Allocation;
  appData : string;
  turnNum : N;
}.

Record ChannelConstants := {
  chainId : string;
  participants : list string;
  channelNonce : N;
  appDefinition : string;
  challengeDuration : N;
}.

(** A signed state carries the channel constants, the turn-specific fields
    and the signatures. *)
Record SignedState := {
  constants : ChannelConstants;
  stateTurnNum : N;
  stateAppData : string;
  isFinal : bool;
  signatures : list string;
}.

(** The wallet's message.  [signedStates] is an optional property, and an
    array the source builds by indexing may hold [undefined], hence the two
    options. *)
Record WalletMessage := { signedStates : option (list (option SignedState)) }.

(** The [data] of a wire message is untyped in the schema.  The source casts
    it to an array of signed states in [getExistingChannelId] and to a wallet
    message everywhere else; both shapes are kept. *)
Inductive MessageData :=
| DataSignedStates (states : list SignedState)
| DataWalletMessage (m : WalletMessage).

Record WireMessage := { sender : string; recipient : string; data : MessageData }.

(** An outbox item; [params] is read without a check, [None] is
    [undefined]. *)
Record OutboxItem := { params : option WireMessage }.

(** The two shapes of a wallet reply, as the source destructures them. *)
Record MultipleChannelResult := {
  channelResults : list ChannelResult;
  multiOutbox : list OutboxItem;
}.

Record SingleChannelResult := {
  channelResult : option ChannelResult;
  outbox : list OutboxItem;
}.

Record SCAttestation := { responseCID : string; signature : string }.

Inductive StateType := AttestationProvided | QueryDeclined.

(** Third argument and result of [computeNextState]. *)
Record Transition := {
  toStateType : StateType;
  queryRequestCID : string;
  attestation : SCAttestation;
}.

Record NextState := { nextAppData : string; nextAllocation : list Allocation }.

(** ** Failures *)

(** What a method can reject with: an [Error] built by the source with its
    message, the [TypeError] JavaScript raises on reading a property of
    [undefined], or a rejection coming from a collaborator. *)
Inductive Exn :=
| JsError (message : string)
| TypeError
| Rejected (reason : string).

Inductive Outcome (A : Type) :=
| Returned (a : A)
| Thrown (e : Exn).
Arguments Returned {A} a.
Arguments Thrown {A} e.

(** The messages of the source, under the names the specification gives to
    the failures. *)
Definition NoChannelUpdate : Exn :=
  JsError "Received a new state that did nothing".
Definition MalformedJoinOutbox : Exn :=
  JsError "Expected one or two outbox items after joining channel".
Definition UndefinedPostFundState : Exn :=
  JsError "Unexpected undefined postFund2State".
Definition UnrecognizedProtocolTransition : Exn :=
  JsError "Received a message which was neither a new channel request, nor a closure request".
Definition ChannelNotFound (id : string) : Exn :=
  JsError ("No channel result for channelId " ++ id ++ ".").

(** ** Collaborators *)

(** The wallet: five operations over a state of its own, each of which may
    reject. *)
Class Wallet (W : Type) := {
  pushMessage : W → MessageData → Outcome MultipleChannelResult * W;
  joinChannel : W → ChannelResult → Outcome SingleChannelResult * W;
  updateChannelFunding : W → string → string → N → Outcome SingleChannelResult * W;
  updateChannel : W → string → string → list Allocation → Outcome SingleChannelResult * W;
  getState : W → string → Outcome SingleChannelResult * W;
}.

(** The pure functions of [@statechannels/graph] and
    [@statechannels/wallet-core].  [computeNextState] receives the
    [appData] and [allocations] read off what [getChannelResult] returned,
    which are [undefined] ([None]) when that is not a channel result.
    [calculateChannelId] receives the object [{...firstState}]: the
    constants of the first state, or the empty object ([None]) when there is
    no first state. *)
Class Pure := {
  computeNextState :
    option string → option (list Allocation) → Transition → Outcome NextState;
  calculateChannelId : option ChannelConstants → Outcome string;
}.

(** The calls made to the wallet, in order; a record kept next to the
    manager so that the theorems can speak of which calls a run made. *)
Inductive WalletCall :=
| CallPushMessage (d : MessageData)
| CallJoinChannel (c : ChannelResult)
| CallUpdateChannelFunding (id tok : string) (amt : N)
| CallUpdateChannel (id app : string) (allocs : list Allocation)
| CallGetState (id : string).

Definition isUpdateChannel (c : WalletCall) : bool :=
  match c with CallUpdateChannel _ _ _ => true | _ => false end.
Definition isGetState (c : WalletCall) : bool :=
  match c with CallGetState _ => true | _ => false end.

(** ** The cache object *)

(** [cachedState] is a plain JavaScript object used as a dictionary.  It has
    its own properties, written by assignment, and a prototype through which
    every other key is read: [Object.prototype] as long as no assignment
    named [__proto__], and afterwards the channel result that was assigned
    there. *)
Inductive Prototype :=
| ObjectPrototype
| ResultPrototype (cr : ChannelResult).

Record CacheObject := {
  own : gmap string (option ChannelResult);
  proto : Prototype;
}.

(** What a read of the cache yields when it is truthy: a channel result, or
    some other value (a method of [Object.prototype], [Object.prototype]
    itself, a field of the channel result that serves as prototype). *)
Inductive Entry :=
| Result (cr : ChannelResult)
| Foreign.

(** The methods every object inherits from [Object.prototype], as the
    JavaScript runtime defines them; [__proto__] is read and assigned apart. *)
Definition objectPrototypeMembers : list string :=
  ["constructor"; "__defineGetter__"; "__defineSetter__"; "hasOwnProperty";
   "__lookupGetter__"; "__lookupSetter__"; "isPrototypeOf";
   "propertyIsEnumerable"; "toString"; "valueOf"; "toLocaleString"].

(** The declaration of [ChannelResult] belongs to the client API schema:
    which properties a channel result object has, and whether the value of
    each is truthy, is left to it. *)
Class Schema := {
  resultProperty : ChannelResult → string → option bool;
}.

Definition objectMember (id : string) : option Entry :=
  if existsb (String.eqb id) objectPrototypeMembers then Some Foreign else None.

(** A read through the prototype chain; a falsy value reads as [None]. *)
Definition inherited `{Schema} (p : Prototype) (id : string) : option Entry :=
  match p with
  | ObjectPrototype => objectMember id
  | ResultPrototype cr =>
      match resultProperty cr id with
      | Some true => Some Foreign
      | Some false => None
      | None => objectMember id
      end
  end.

(** [this.cachedState[id]], [None] standing for a falsy value: [__proto__]
    reads the prototype, an own property reads its value (which may be
    [undefined]), and any other key is read through the prototype. *)
Definition readCache `{Schema} (c : CacheObject) (id : string) : option Entry :=
  if String.eqb id "__proto__" then
    Some (match proto c with
          | ObjectPrototype => Foreign
          | ResultPrototype cr => Result cr
          end)
  else
    match own c !! id with
    | Some v => Result <$> v
    | None => inherited (proto c) id
    end.

(** [this.cachedState[id] = v]: at [__proto__] an object replaces the
    prototype and [undefined] is ignored; at any other key the own property
    is created or overwritten. *)
Definition assign (c : CacheObject) (id : string) (v : option ChannelResult)
  : CacheObject :=
  if String.eqb id "__proto__" then
    match v with
    | Some cr => {| own := own c; proto := ResultPrototype cr |}
    | None => c
    end
  else {| own := <[id := v]> (own c); proto := proto c |}.

(** [appData] and [allocations] of what [getChannelResult] returned. *)
Definition entryAppData (e : Entry) : option string :=
  match e with Result cr => Some (appData cr) | Foreign => None end.
Definition entryAllocations (e : Entry) : option (list Allocation) :=
  match e with Result cr => Some (allocations cr) | Foreign => None end.

(** ** The manager and its monad *)

Record ReceiptManager (W : Type) := {
  wallet : W;
  cachedState : CacheObject;
  calls : list WalletCall;
  infos : list (string * string);
}.
Arguments wallet {W} _.
Arguments cachedState {W} _.
Arguments calls {W} _.
Arguments infos {W} _.

Definition M (W A : Type) : Type := ReceiptManager W → Outcome A * ReceiptManager W.

Definition ret {W A} (a : A) : M W A := fun s => (Returned a, s).
Definition throw {W A} (e : Exn) : M W A := fun s => (Thrown e, s).
Definition bind {W A B} (m : M W A) (k : A → M W B) : M W B :=
  fun s => match m s with
           | (Returned a, s') => k a s'
           | (Thrown e, s') => (Thrown e, s')
           end.

Declare Scope rm_scope.
Delimit Scope rm_scope with rm.
Notation "'do' x <- c ; k" := (bind c (fun x => k))
  (at level 10, x name, c at level 100, k at level 200) : rm_scope.
Notation "'run' c ; k" := (bind c (fun _ => k))
  (at level 10, c at level 100, k at level 200) : rm_scope.

(** Array indexing: out of range is [undefined]. *)
Definition at0 {A} (l : list (option A)) : option A :=
  match l !! 0%nat with Some v => v | None => None end.

Section Manager.
Context {W : Type} `{Wallet W} `{Pure} `{Schema}.

Local Open Scope rm_scope.

Definition getCache : M W CacheObject :=
  fun s => (Returned (cachedState s), s).

(** [this.cachedState[id] = v] *)
Definition setCache (id : string) (v : option ChannelResult) : M W unit :=
  fun s => (Returned tt,
            {| wallet := wallet s; cachedState := assign (cachedState s) id v;
               calls := calls s; infos := infos s |}).

(** [this.logger.info(msg, ...)] *)
Definition info (msg id : string) : M W unit :=
  fun s => (Returned tt,
            {| wallet := wallet s; cachedState := cachedState s;
               calls := calls s; infos := infos s ++ [(msg, id)] |}).

(** [await this.wallet.op(...)]: the call is recorded, the wallet moves to
    its next state, and a rejection is rethrown. *)
Definition callWallet {A} (c : WalletCall) (op : W → Outcome A * W) : M W A :=
  fun s => let '(r, w) := op (wallet s) in
           (r, {| wallet := w; cachedState := cachedState s;
                  calls := calls s ++ [c]; infos := infos s |}).

Definition liftPure {A} (r : Outcome A) : M W A := fun s => (r, s).

(** ** The methods *)

Definition getChannelState (id : string) : M W (option Entry) :=
  do c <- getCache;
  run (match readCache c id with
       | Some _ => ret tt
       | None =>
           do r <- callWallet (CallGetState id) (fun w => getState w id);
           setCache id (channelResult r)
       end);
  do c <- getCache;
  ret (readCache c id).

Definition getChannelResult (id : string) : M W Entry :=
  do r <- getChannelState id;
  match r with
  | None => throw (ChannelNotFound id)
  | Some cr => ret cr
  end.

Definition getExistingChannelId (message : WireMessage) : M W (option string) :=
  let firstState :=
    match data message with
    | DataSignedStates l => l !! 0%nat
    | DataWalletMessage _ => None
    end in
  let channelConstants := constants <$> firstState in
  do id <- liftPure (calculateChannelId channelConstants);
  do id' <- liftPure (calculateChannelId channelConstants);
  do r <- getChannelResult id';
  (* [r ? channelId : undefined]: [r] is a channel result, an object, and
     an object is truthy *)
  ret (Some id).

(** [[...].map(a => a.amount).reduce(BN.add, BN.from(0))] *)
Definition totalOf (items : list AllocationItem) : N :=
  fold_left N.add (map amount items) 0%N.

(** [((m as WireMessage).data as WalletMessage).signedStates![0]]: reading
    index 0 of a missing [signedStates] is a [TypeError]; an array of
    signed states has no [signedStates] property. *)
Definition firstSignedState (m : WireMessage) : Outcome (option SignedState) :=
  match data m with
  | DataWalletMessage {| signedStates := Some l |} => Returned (at0 l)
  | DataWalletMessage {| signedStates := None |} => Thrown TypeError
  | DataSignedStates _ => Thrown TypeError
  end.

(** [outbox.length === 2 && BN.eq(totalInChannel, 0) ? outbox[1].params : undefined] *)
Definition zeroFundPostFund2State (joinedOutbox : list OutboxItem) (totalInChannel : N)
  : option WireMessage :=
  if (length joinedOutbox =? 2)%nat && (totalInChannel =? 0)%N
  then match joinedOutbox !! 1%nat with
       | Some item1 => params item1
       | None => None
       end
  else None.

(** The end of the join branch, which no longer touches the manager: the
    check on [postFund2State] and the message that is returned. *)
Definition joinReply (outboundJoinedChannelState postFund2State : option WireMessage)
  : Outcome (option WireMessage) :=
  match postFund2State with
  | None => Thrown UndefinedPostFundState
  | Some postFund =>
    match outboundJoinedChannelState with
    | None => Thrown TypeError
    | Some joinedState =>
      match firstSignedState joinedState with
      | Thrown e => Thrown e
      | Returned s0 =>
        match firstSignedState postFund with
        | Thrown e => Thrown e
        | Returned s3 =>
          Returned (Some {| sender := sender joinedState;
                            recipient := recipient joinedState;
                            data := DataWalletMessage
                                      {| signedStates := Some [s0; s3] |} |})
        end
      end
    end
  end.

Definition inputStateChannelMessage (message : WireMessage) : M W (option WireMessage) :=
  do pushed <- callWallet (CallPushMessage (data message))
                          (fun w => pushMessage w (data message));
  let pushedOutbox := multiOutbox pushed in
  match channelResults pushed !! 0%nat with
  | None => throw NoChannelUpdate
  | Some channelResult =>
    run setCache (channelId channelResult) (Some channelResult);
    if ChannelStatus_eqb (status channelResult) proposed && (length pushedOutbox =? 0)%nat then
      do joined <- callWallet (CallJoinChannel channelResult)
                              (fun w => joinChannel w channelResult);
      let joinedOutbox := outbox joined in
      if negb (length joinedOutbox =? 1)%nat && negb (length joinedOutbox =? 2)%nat then
        throw MalformedJoinOutbox
      else
      match joinedOutbox !! 0%nat with
      | None => throw TypeError
      | Some item0 =>
        let outboundJoinedChannelState := params item0 in
        run info "Channel creation succeeded" (channelId channelResult);
        match allocations channelResult !! 0%nat with
        | None => throw TypeError
        | Some allocation0 =>
          let totalInChannel := totalOf (allocationItems allocation0) in
          let zeroFund := zeroFundPostFund2State joinedOutbox totalInChannel in
          do fundedPostFund2State <-
            match zeroFund with
            | Some _ => ret None
            | None =>
                do funded <- callWallet
                    (CallUpdateChannelFunding (channelId channelResult)
                                              (token allocation0) totalInChannel)
                    (fun w => updateChannelFunding w (channelId channelResult)
                                                   (token allocation0) totalInChannel);
                match outbox funded !! 0%nat with
                | None => throw TypeError
                | Some item => ret (params item)
                end
            end;
          let postFund2State :=
            match zeroFund with
            | Some p => Some p
            | None => fundedPostFund2State
            end in
          liftPure (joinReply outboundJoinedChannelState postFund2State)
        end
      end
    else if ChannelStatus_eqb (status channelResult) running && (length pushedOutbox =? 0)%nat then
      ret None
    else if ChannelStatus_eqb (status channelResult) closed && (length pushedOutbox =? 1)%nat then
      run info "Closed channel" (channelId channelResult);
      match pushedOutbox !! 0%nat with
      | None => throw TypeError
      | Some item => ret (params item)
      end
    else throw UnrecognizedProtocolTransition
  end.

(** [attestation ?? { responseCID: '', signature: '' }] *)
Definition inputAttestation (att : option SCAttestation) : SCAttestation :=
  match att with
  | Some a => a
  | None => {| responseCID := ""; signature := "" |}
  end.

Definition nextState (stateType : StateType) (id : string)
    (att : option SCAttestation) : M W (option WireMessage) :=
  do current <- getChannelResult id;
  do next <- liftPure (computeNextState (entryAppData current)
                         (entryAllocations current)
                         {| toStateType := stateType;
                            queryRequestCID := "";
                            attestation := inputAttestation att |});
  do updated <- callWallet
      (CallUpdateChannel id (nextAppData next) (nextAllocation next))
      (fun w => updateChannel w id (nextAppData next) (nextAllocation next));
  match outbox updated !! 0%nat with
  | None => throw TypeError
  | Some item =>
    run setCache id (channelResult updated);
    ret (params item)
  end.

Definition provideAttestation (id : string) (att : SCAttestation) :=
  nextState AttestationProvided id (Some att).

Definition declineQuery (id : string) :=
  nextState QueryDeclined id None.

(** The pairs of status and outbox length that none of the three branches
    of [inputStateChannelMessage] takes. *)
Definition unrecognized (st : ChannelStatus) (outboxLength : nat) : bool :=
  negb (ChannelStatus_eqb st proposed && (outboxLength =? 0)%nat)
  && negb (ChannelStatus_eqb st running && (outboxLength =? 0)%nat)
  && negb (ChannelStatus_eqb st closed && (outboxLength =? 1)%nat).

(** The identifier an inbound message concerns: that of the first channel
    result of its ingestion, if there is one. *)
Definition ingestedId (s : ReceiptManager W) (message : WireMessage) : option string :=
  match pushMessage (wallet s) (data message) with
  | (Returned pushed, _) => channelId <$> (channelResults pushed !! 0%nat)
  | (Thrown _, _) => None
  end.

(** The object [{...firstState}] of [getExistingChannelId]. *)
Definition spreadFirstState (message : WireMessage) : option ChannelConstants :=
  constants <$> match data message with
                | DataSignedStates l => l !! 0%nat
                | DataWalletMessage _ => None
                end.

(** The identifier [getExistingChannelId] derives from a message. *)
Definition derivedId (message : WireMessage) : option string :=
  let firstState :=
    match data message with
    | DataSignedStates l => l !! 0%nat
    | DataWalletMessage _ => None
    end in
  match calculateChannelId (constants <$> firstState) with
  | Returned id => Some id
  | Thrown _ => None
  end.

(** The manager a run of [inputStateChannelMessage] leaves behind: once the
    first channel result is cached, after the join, and after the funding
    call. *)
Definition ingested (s : ReceiptManager W) (d : MessageData) (w : W)
    (cr : ChannelResult) : ReceiptManager W :=
  {| wallet := w;
     cachedState := assign (cachedState s) (channelId cr) (Some cr);
     calls := calls s ++ [CallPushMessage d];
     infos := infos s |}.

Definition afterJoin (s : ReceiptManager W) (d : MessageData) (w : W)
    (cr : ChannelResult) : ReceiptManager W :=
  {| wallet := w;
     cachedState := assign (cachedState s) (channelId cr) (Some cr);
     calls := (calls s ++ [CallPushMessage d]) ++ [CallJoinChannel cr];
     infos := infos s ++ [("Channel creation succeeded", channelId cr)] |}.

Definition afterFunding (s : ReceiptManager W) (d : MessageData) (w : W)
    (cr : ChannelResult) (tok : string) (total : N) : ReceiptManager W :=
  {| wallet := w;
     cachedState := assign (cachedState s) (channelId cr) (Some cr);
     calls := ((calls s ++ [CallPushMessage d]) ++ [CallJoinChannel cr])
                ++ [CallUpdateChannelFunding (channelId cr) tok total];
     infos := infos s ++ [("Channel creation succeeded", channelId cr)] |}.

(** What [nextState] returns and leaves behind once the channel result is
    resolved, the next state is [next] and the wallet has answered the
    update with [r]; [s] is the manager after the resolution. *)
Definition afterUpdate (s : ReceiptManager W) (id : string) (next : NextState)
    (r : Outcome SingleChannelResult) (w : W)
  : Outcome (option WireMessage) * ReceiptManager W :=
  let called :=
    (calls s ++ [CallUpdateChannel id (nextAppData next) (nextAllocation next)])%list in
  match r with
  | Thrown e =>
      (Thrown e, {| wallet := w; cachedState := cachedState s;
                    calls := called; infos := infos s |})
  | Returned updated =>
      match outbox updated !! 0%nat with
      | None =>
          (Thrown TypeError, {| wallet := w; cachedState := cachedState s;
                                calls := called; infos := infos s |})
      | Some item =>
          (Returned (params item),
           {| wallet := w;
              cachedState := assign (cachedState s) id (channelResult updated);
              calls := called; infos := infos s |})
      end
  end.

(** [postFund] is the post-fund state of the join branch: the payload of
    the second outbox item of the join when there are exactly two, every
    item of the first allocation has amount zero and that payload is
    defined; the payload of the first outbox item of the funding call, made
    with the token and the total of the first allocation, in every other
    case.  [w] is the wallet as the join left it. *)
Definition isPostFund2State (w : W) (cr : ChannelResult)
    (joinedOutbox : list OutboxItem) (postFund : WireMessage) : Prop :=
  ∃ allocation0, allocations cr !! 0%nat = Some allocation0 ∧
    let free := Forall (fun item => amount item = 0%N) (allocationItems allocation0) in
    (∃ item0 item1,
       joinedOutbox = [item0; item1] ∧ free ∧ params item1 = Some postFund)
    ∨ ((∀ item0 item1, joinedOutbox = [item0; item1] → free → params item1 = None) ∧
       ∃ funded w' item,
         updateChannelFunding w (channelId cr) (token allocation0)
           (totalOf (allocationItems allocation0)) = (Returned funded, w') ∧
         outbox funded !! 0%nat = Some item ∧ params item = Some postFund).

(** Computations that leave the cache as it is, computations after which
    every key other than [id] reads as before, and computations that change
    no own property other than that of [id]. *)
Definition keepsCache {A} (m : M W A) : Prop :=
  ∀ s, cachedState (snd (m s)) = cachedState s.

Definition touchesOnly {A} (id : string) (m : M W A) : Prop :=
  ∀ s k, k ≠ id →
    readCache (cachedState (snd (m s))) k = readCache (cachedState s) k.

Definition writesOnly {A} (id : string) (m : M W A) : Prop :=
  ∀ s k, k ≠ id →
    own (cachedState (snd (m s))) !! k = own (cachedState s) !! k.

(** [n] resolutions of the same identifier in a row, nothing in between. *)
Fixpoint resolveTimes (n : nat) (id : string) : M W (list Entry) :=
  match n with
  | O => ret []
  | S n' =>
      do r <- getChannelResult id;
      do rs <- resolveTimes n' id;
      ret (r :: rs)
  end.

End Manager.

(** Computations that remove no key from the cache. *)
Definition cacheGrows {W A} (m : M W A) : Prop :=
  ∀ s (k : string),
    is_Some (own (cachedState s) !! k) → is_Some (own (cachedState (snd (m s))) !! k).

(** ** Test doubles *)

(** A wallet that answers from a fixed script and keeps no state, and pure
    functions that do the least possible; used to run the methods on
    concrete inputs. *)
Module Fixtures.

Record Script := {
  onPushMessage : MessageData → Outcome MultipleChannelResult;
  onJoinChannel : ChannelResult → Outcome SingleChannelResult;
  onUpdateChannelFunding : string → string → N → Outcome SingleChannelResult;
  onUpdateChannel : string → string → list Allocation → Outcome SingleChannelResult;
  onGetState : string → Outcome SingleChannelResult;
}.

#[export] Instance scriptedWallet : Wallet Script := {|
  pushMessage w d := (onPushMessage w d, w);
  joinChannel w c := (onJoinChannel w c, w);
  updateChannelFunding w id tok amt := (onUpdateChannelFunding w id tok amt, w);
  updateChannel w id app allocs := (onUpdateChannel w id app allocs, w);
  getState w id := (onGetState w id, w);
|}.

(** The next state keeps the allocations and takes the response content
    identifier as application data; the identifier is the chain id followed
    by the participants. *)
#[export] Instance simplePure : Pure := {|
  computeNextState app allocs t :=
    Returned {| nextAppData := responseCID (attestation t);
                nextAllocation := default [] allocs |};
  calculateChannelId o :=
    match o with
    | Some c => Returned (String.concat "/" (chainId c :: participants c))
    | None => Thrown TypeError
    end;
|}.

(** A channel result object has the five properties of the record; strings
    are truthy unless empty, numbers unless zero, arrays always. *)
#[export] Instance recordSchema : Schema := {|
  resultProperty cr k :=
    if String.eqb k "channelId" then Some (negb (String.eqb (channelId cr) ""))
    else if String.eqb k "status" then Some true
    else if String.eqb k "allocations" then Some true
    else if String.eqb k "appData" then Some (negb (String.eqb (appData cr) ""))
    else if String.eqb k "turnNum" then Some (negb (turnNum cr =? 0)%N)
    else None;
|}.

(** The cache [{}], and the cache holding the given own properties. *)
Definition plainObject (m : gmap string (option ChannelResult)) : CacheObject :=
  {| own := m; proto := ObjectPrototype |}.
Definition emptyCache : CacheObject := plainObject ∅.

Definition fresh (w : Script) : ReceiptManager Script :=
  {| wallet := w; cachedState := emptyCache; calls := []; infos := [] |}.

Definition state0 : SignedState :=
  {| constants := {| chainId := "1"; participants := ["payer"; "indexer"];
                     channelNonce := 7; appDefinition := "0xapp";
                     challengeDuration := 60 |};
     stateTurnNum := 0; stateAppData := "0x"; isFinal := false;
     signatures := ["sigA"; "sigB"] |}.
Definition state3 : SignedState :=
  {| constants := constants state0; stateTurnNum := 3; stateAppData := "0x";
     isFinal := false; signatures := ["sigB"] |}.

Definition wireOf (s : SignedState) : WireMessage :=
  {| sender := "indexer"; recipient := "payer";
     data := DataWalletMessage {| signedStates := Some [Some s] |} |}.
Definition itemOf (s : SignedState) : OutboxItem := {| params := Some (wireOf s) |}.

Definition inbound : WireMessage :=
  {| sender := "payer"; recipient := "indexer";
     data := DataWalletMessage {| signedStates := Some [Some state0] |} |}.

Definition channel (st : ChannelStatus) (allocs : list Allocation) : ChannelResult :=
  {| channelId := "1/payer/indexer"; status := st; allocations := allocs;
     appData := "0x"; turnNum := 0 |}.

Definition alloc (tok : string) (amounts : list N) : Allocation :=
  {| token := tok;
     allocationItems := map (fun a => {| destination := "0xdest"; amount := a |}) amounts |}.

Definition rejecting {A} : Outcome A := Thrown (Rejected "not scripted").

(** A wallet whose ingestion yields [c] with the outbox [out], whose join
    yields [joined] and whose funding yields [funded]. *)
Definition lifecycleWallet (c : ChannelResult) (out joined funded : list OutboxItem)
  : Script :=
  {| onPushMessage _ := Returned {| channelResults := [c]; multiOutbox := out |};
     onJoinChannel c' := Returned {| channelResult := Some c'; outbox := joined |};
     onUpdateChannelFunding _ _ _ :=
       Returned {| channelResult := Some c; outbox := funded |};
     onUpdateChannel _ _ _ := rejecting;
     onGetState _ := rejecting |}.

(** A wallet that knows no channel and accepts every update. *)
Definition settlementWallet (c : ChannelResult) : Script :=
  {| onPushMessage _ := rejecting;
     onJoinChannel _ := rejecting;
     onUpdateChannelFunding _ _ _ := rejecting;
     onUpdateChannel id app allocs :=
       Returned {| channelResult :=
                     Some {| channelId := id; status := status c;
                             allocations := allocs; appData := app;
                             turnNum := turnNum c + 1 |};
                   outbox := [itemOf state3] |};
     onGetState _ := Returned {| channelResult := None; outbox := [] |} |}.

Definition cached (w : Script) (c : ChannelResult) : ReceiptManager Script :=
  {| wallet := w; cachedState := plainObject {[ channelId c := Some c ]};
     calls := []; infos := [] |}.

(** A free channel, a paid channel, and a channel with two allocations. *)
Definition freeChannel : ChannelResult := channel proposed [alloc "0xtok" [0; 0]%N].
Definition paidChannel : ChannelResult := channel proposed [alloc "0xtok" [5; 0]%N].
Definition twoAllocations : ChannelResult :=
  channel proposed [alloc "0xtok" [5; 0]%N; alloc "0xother" [7]%N].

Definition pushedOf (c : ChannelResult) (out : list OutboxItem) : MultipleChannelResult :=
  {| channelResults := [c]; multiOutbox := out |}.
Definition joinedOf (c : ChannelResult) (out : list OutboxItem) : SingleChannelResult :=
  {| channelResult := Some c; outbox := out |}.

Definition attestation0 : SCAttestation :=
  {| responseCID := "Qm123"; signature := "0xabc" |}.

Definition closedChannel : ChannelResult := channel closed [alloc "0xtok" [5; 0]%N].
Definition finalState : SignedState :=
  {| constants := constants state0; stateTurnNum := 9; stateAppData := "0x";
     isFinal := true; signatures := ["sigB"] |}.

(** The managers the operations are run on. *)
Definition unknownManager : ReceiptManager Script :=
  fresh (settlementWallet freeChannel).
Definition proposedManager : ReceiptManager Script :=
  cached (settlementWallet freeChannel) freeChannel.

Definition twoAllocationsWallet : Script :=
  lifecycleWallet twoAllocations [] [itemOf state0] [itemOf state3].
Definition emptyFundingWallet : Script :=
  lifecycleWallet paidChannel [] [itemOf state0] [].
Definition closingWallet : Script :=
  lifecycleWallet closedChannel [itemOf finalState] [] [].
Definition strayWallet : Script :=
  lifecycleWallet freeChannel [itemOf state0] [] [].

(** Further channels and wallets. *)
Definition runningChannel : ChannelResult := channel running [alloc "0xtok" [5; 0]%N].
Definition fundingChannel : ChannelResult := channel funding [alloc "0xtok" [5; 0]%N].
Definition bareChannel : ChannelResult := channel proposed [].

Definition deafWallet : Script :=
  {| onPushMessage _ := rejecting; onJoinChannel _ := rejecting;
     onUpdateChannelFunding _ _ _ := rejecting;
     onUpdateChannel _ _ _ := rejecting; onGetState _ := rejecting |}.
Definition idleWallet : Script :=
  {| onPushMessage _ := Returned {| channelResults := []; multiOutbox := [itemOf state0] |};
     onJoinChannel _ := rejecting; onUpdateChannelFunding _ _ _ := rejecting;
     onUpdateChannel _ _ _ := rejecting; onGetState _ := rejecting |}.
Definition unjoinableWallet : Script :=
  {| onPushMessage _ := Returned {| channelResults := [freeChannel]; multiOutbox := [] |};
     onJoinChannel _ := rejecting; onUpdateChannelFunding _ _ _ := rejecting;
     onUpdateChannel _ _ _ := rejecting; onGetState _ := rejecting |}.
Definition acknowledgingWallet : Script := lifecycleWallet runningChannel [] [] [].
Definition fundingStatusWallet : Script :=
  lifecycleWallet fundingChannel [itemOf state0] [] [].
Definition closedSilentWallet : Script := lifecycleWallet closedChannel [] [] [].
Definition emptyJoinWallet : Script := lifecycleWallet freeChannel [] [] [].
Definition bareWallet : Script := lifecycleWallet bareChannel [] [itemOf state0] [].
Definition hollowItem : OutboxItem := {| params := None |}.
Definition hollowShortcutWallet : Script :=
  lifecycleWallet freeChannel [] [itemOf state0; hollowItem] [itemOf state3].
Definition paidTwoItemsWallet : Script :=
  lifecycleWallet paidChannel [] [itemOf state0; itemOf finalState] [itemOf state3].

(** A wallet that knows the channel [c]; a wallet that answers every update
    with an empty outbox. *)
Definition knowingWallet (c : ChannelResult) : Script :=
  {| onPushMessage _ := rejecting; onJoinChannel _ := rejecting;
     onUpdateChannelFunding _ _ _ := rejecting;
     onUpdateChannel _ _ _ := rejecting;
     onGetState _ := Returned {| channelResult := Some c; outbox := [] |} |}.
Definition muteWallet (c : ChannelResult) : Script :=
  {| onPushMessage _ := rejecting; onJoinChannel _ := rejecting;
     onUpdateChannelFunding _ _ _ := rejecting;
     onUpdateChannel _ _ _ := Returned {| channelResult := Some c; outbox := [] |};
     onGetState _ := rejecting |}.

(** Pure functions of which [computeNextState] always throws. *)
Definition failingPure : Pure := {|
  computeNextState _ _ _ := Thrown (Rejected "no transition");
  calculateChannelId o :=
    match o with
    | Some c => Returned (String.concat "/" (chainId c :: participants c))
    | None => Thrown TypeError
    end;
|}.

(** The channel result [settlementWallet] returns for an attestation. *)
Definition attestedChannel : ChannelResult :=
  {| channelId := "1/payer/indexer"; status := running;
     allocations := [alloc "0xtok" [5; 0]%N]; appData := "Qm123"; turnNum := 1 |}.
Definition runningManager : ReceiptManager Script :=
  cached (settlementWallet runningChannel) runningChannel.

(** An outbox item whose payload carries no signed state, and a free
    channel joined with it. *)
Definition unsignedItem : OutboxItem :=
  {| params := Some {| sender := "indexer"; recipient := "payer";
                       data := DataWalletMessage {| signedStates := Some [] |} |} |}.
Definition unsignedJoinWallet : Script :=
  lifecycleWallet freeChannel [] [unsignedItem; itemOf state3] [].

(** A wallet that knows the channel [c] and accepts every update. *)
Definition servingWallet (c : ChannelResult) : Script :=
  {| onPushMessage _ := rejecting; onJoinChannel _ := rejecting;
     onUpdateChannelFunding _ _ _ := rejecting;
     onUpdateChannel := onUpdateChannel (settlementWallet c);
     onGetState _ := Returned {| channelResult := Some c; outbox := [] |} |}.

(** A wallet whose channel is named [__proto__], and a manager whose cache
    already holds another channel. *)
Definition protoChannel : ChannelResult :=
  {| channelId := "__proto__"; status := running;
     allocations := [alloc "0xtok" [5; 0]%N]; appData := "0x"; turnNum := 4 |}.
Definition protoWallet : Script := lifecycleWallet protoChannel [] [] [].
Definition neighbourChannel : ChannelResult :=
  {| channelId := "0xneighbour"; status := running;
     allocations := [alloc "0xtok" [1; 1]%N]; appData := "0x"; turnNum := 8 |}.
Definition besideNeighbour (w : Script) : ReceiptManager Script :=
  {| wallet := w; cachedState := plainObject {[ "0xneighbour" := Some neighbourChannel ]};
     calls := []; infos := [] |}.

(** A message in the shape [getExistingChannelId] reads. *)
Definition statesMessage : WireMessage :=
  {| sender := "payer"; recipient := "indexer"; data := DataSignedStates [state0] |}.

End Fixtures.

(** * Properties *)

Import Fixtures.

(** ** The cache *)

Section CacheObjectLaws.
Context `{Schema}.
Implicit Types (c : CacheObject) (id k : string).

(** [__proto__] always reads a truthy value, so a key that reads falsy is
    another one. *)
Lemma readCache_falsy_ordinary c id : readCache c id = None → id ≠ "__proto__".
Proof. intros Hread ->. by unfold readCache in Hread. Qed.

(** A channel result that was assigned is read back, at every key. *)
Lemma readCache_assign c id cr : readCache (assign c id (Some cr)) id = Some (Result cr).
Proof.
  unfold readCache, assign. destruct (String.eqb_spec id "__proto__"); simpl; [done|].
  by rewrite lookup_insert_eq.
Qed.

(** After a miss, the key reads what was assigned, [undefined] included. *)
Lemma readCache_assign_miss c id v :
  readCache c id = None → readCache (assign c id v) id = Result <$> v.
Proof.
  intros Hne%readCache_falsy_ordinary. unfold readCache, assign.
  destruct (String.eqb_spec id "__proto__"); simpl; [done|].
  by rewrite lookup_insert_eq.
Qed.

(** An assignment at a key other than [__proto__] leaves the reads of all
    other keys as they were. *)
Lemma readCache_assign_ne c id k v :
  id ≠ "__proto__" → k ≠ id → readCache (assign c id v) k = readCache c k.
Proof.
  intros Hid Hne. unfold readCache, assign.
  destruct (String.eqb_spec id "__proto__"); [done|].
  destruct (String.eqb_spec k "__proto__"); simpl; [done|].
  by rewrite lookup_insert_ne.
Qed.

(** An assignment changes no own property but that of its key, and removes
    none. *)
Lemma own_assign_ne c id k v : k ≠ id → own (assign c id v) !! k = own c !! k.
Proof.
  intros Hne. unfold assign.
  destruct (String.eqb_spec id "__proto__"); [by destruct v|].
  simpl. by rewrite lookup_insert_ne.
Qed.

Lemma own_assign_ordinary c id v :
  id ≠ "__proto__" → own (assign c id v) !! id = Some v.
Proof.
  intros Hid. unfold assign.
  destruct (String.eqb_spec id "__proto__"); [done|].
  simpl. by rewrite lookup_insert_eq.
Qed.

Lemma own_assign_grows c id k v :
  is_Some (own c !! k) → is_Some (own (assign c id v) !! k).
Proof.
  intros Hk. destruct (decide (k = id)) as [->|Hne].
  - unfold assign. destruct (String.eqb_spec id "__proto__"); [by destruct v|].
    simpl. rewrite lookup_insert_eq. by eexists.
  - by rewrite own_assign_ne.
Qed.

End CacheObjectLaws.

Section Cache.
Context {W : Type} `{Wallet W} `{Pure} `{Schema}.
Implicit Types (s : ReceiptManager W) (id : string).

(** A hit answers from the cache and leaves the manager as it is. *)
Lemma getChannelState_hit s id e :
  readCache (cachedState s) id = Some e →
  getChannelState id s = (Returned (Some e), s).
Proof.
  intros Hhit. unfold getChannelState, bind, getCache, ret. simpl.
  rewrite Hhit. simpl. by rewrite Hhit.
Qed.

(** A miss asks the wallet once and stores what it answers, also when the
    answer holds no channel result. *)
Lemma getChannelState_miss s id r w' :
  readCache (cachedState s) id = None →
  getState (wallet s) id = (Returned r, w') →
  getChannelState id s =
    (Returned (Result <$> channelResult r),
     {| wallet := w'; cachedState := assign (cachedState s) id (channelResult r);
        calls := calls s ++ [CallGetState id]; infos := infos s |}).
Proof.
  intros Hmiss Hget.
  unfold getChannelState, bind, getCache, callWallet, setCache, ret. simpl.
  rewrite Hmiss, Hget. simpl. by rewrite readCache_assign_miss.
Qed.

Lemma getChannelState_rejected s id e w' :
  readCache (cachedState s) id = None →
  getState (wallet s) id = (Thrown e, w') →
  getChannelState id s =
    (Thrown e,
     {| wallet := w'; cachedState := cachedState s;
        calls := calls s ++ [CallGetState id]; infos := infos s |}).
Proof.
  intros Hmiss Hget.
  unfold getChannelState, bind, getCache, callWallet. simpl.
  by rewrite Hmiss, Hget.
Qed.

Lemma getChannelResult_hit s id e :
  readCache (cachedState s) id = Some e →
  getChannelResult id s = (Returned e, s).
Proof.
  intros Hhit. unfold getChannelResult, bind.
  by rewrite (getChannelState_hit _ _ _ Hhit).
Qed.

(** Whatever [getChannelState] returns is what the cache then holds. *)
Lemma getChannelState_cached s id r s' :
  getChannelState id s = (Returned r, s') → readCache (cachedState s') id = r.
Proof.
  destruct (readCache (cachedState s) id) as [e|] eqn:Hc.
  - rewrite (getChannelState_hit _ _ _ Hc). by intros [= <- <-].
  - destruct (getState (wallet s) id) as [[got|e] w'] eqn:Hget.
    + rewrite (getChannelState_miss _ _ _ _ Hc Hget). intros [= <- <-].
      by apply readCache_assign_miss.
    + by rewrite (getChannelState_rejected _ _ _ _ Hc Hget).
Qed.

Lemma resolveTimes_hit n s id e :
  readCache (cachedState s) id = Some e →
  resolveTimes n id s = (Returned (replicate n e), s).
Proof.
  intros Hhit. induction n as [|n IH]; [done|].
  simpl. unfold bind. rewrite (getChannelResult_hit _ _ _ Hhit), IH. done.
Qed.

End Cache.

(** ** Which cache entries a computation writes *)

Section Frame.
Context {W : Type} `{Wallet W} `{Pure} `{Schema}.
Implicit Types (s : ReceiptManager W) (id : string).

Lemma keeps_ret {A} (a : A) : keepsCache (W := W) (ret a).
Proof. by intros s. Qed.

Lemma keeps_throw {A} e : keepsCache (W := W) (A := A) (throw e).
Proof. by intros s. Qed.

Lemma keeps_liftPure {A} (r : Outcome A) : keepsCache (W := W) (liftPure r).
Proof. by intros s. Qed.

Lemma keeps_info msg id : keepsCache (W := W) (info msg id).
Proof. by intros s. Qed.

Lemma keeps_callWallet {A} c (op : W → Outcome A * W) : keepsCache (callWallet c op).
Proof. intros s. unfold callWallet. by destruct (op (wallet s)). Qed.

Lemma keeps_bind {A B} (m : M W A) (k : A → M W B) :
  keepsCache m → (∀ a, keepsCache (k a)) → keepsCache (bind m k).
Proof.
  intros Hm Hk s. unfold bind. specialize (Hm s).
  destruct (m s) as [[a|e] s1]; simpl in *; [|done].
  by rewrite Hk.
Qed.

Lemma keeps_touchesOnly {A} id (m : M W A) : keepsCache m → touchesOnly id m.
Proof. intros Hm s k _. by rewrite Hm. Qed.

Lemma touches_setCache id v :
  id ≠ "__proto__" → touchesOnly (W := W) id (setCache id v).
Proof. intros Hid s k Hne. simpl. by apply readCache_assign_ne. Qed.

Lemma touches_bind {A B} id (m : M W A) (k : A → M W B) :
  touchesOnly id m → (∀ a, touchesOnly id (k a)) → touchesOnly id (bind m k).
Proof.
  intros Hm Hk s j Hne. unfold bind. specialize (Hm s j Hne).
  destruct (m s) as [[a|e] s1]; simpl in *; [|done].
  by rewrite Hk.
Qed.

(** A resolution writes on a miss only, and no miss is at [__proto__]. *)
Lemma touches_getChannelState id : touchesOnly id (getChannelState id).
Proof.
  unfold getChannelState.
  apply touches_bind; [by apply keeps_touchesOnly|intros c].
  apply touches_bind; [|intros _; by apply keeps_touchesOnly, keeps_bind].
  destruct (readCache c id) eqn:Hread.
  - apply keeps_touchesOnly, keeps_ret.
  - apply touches_bind; [apply keeps_touchesOnly, keeps_callWallet|intros r].
    apply touches_setCache. by apply (readCache_falsy_ordinary c).
Qed.

Lemma touches_getChannelResult id : touchesOnly id (getChannelResult id).
Proof.
  unfold getChannelResult.
  apply touches_bind; [apply touches_getChannelState|intros [cr|]].
  - apply keeps_touchesOnly, keeps_ret.
  - apply keeps_touchesOnly, keeps_throw.
Qed.

Lemma touches_nextState st id att :
  id ≠ "__proto__" → touchesOnly id (nextState st id att).
Proof.
  intros Hid. unfold nextState.
  apply touches_bind; [apply touches_getChannelResult|intros current].
  apply touches_bind; [apply keeps_touchesOnly, keeps_liftPure|intros next].
  apply touches_bind; [apply keeps_touchesOnly, keeps_callWallet|intros updated].
  destruct (outbox updated !! 0%nat).
  - apply touches_bind; [by apply touches_setCache|intros _].
    apply keeps_touchesOnly, keeps_ret.
  - apply keeps_touchesOnly, keeps_throw.
Qed.

Lemma touches_getExistingChannelId message id :
  derivedId message = Some id → touchesOnly id (getExistingChannelId message).
Proof.
  unfold derivedId, getExistingChannelId. intros Hid s k Hne.
  unfold bind, liftPure.
  destruct (calculateChannelId _) as [id'|e]; [|done].
  injection Hid as ->.
  pose proof (touches_getChannelResult id s k Hne) as Hres.
  by destruct (getChannelResult id s) as [[cr|e] s1].
Qed.

Lemma keeps_getExistingChannelId message :
  derivedId message = None → keepsCache (getExistingChannelId message).
Proof.
  unfold derivedId, getExistingChannelId. intros Hid s.
  unfold bind, liftPure.
  by destruct (calculateChannelId _) as [id'|e].
Qed.

(** The same for the own properties, at every key. *)
Lemma keeps_writesOnly {A} id (m : M W A) : keepsCache m → writesOnly id m.
Proof. intros Hm s k _. by rewrite Hm. Qed.

Lemma writes_setCache id v : writesOnly (W := W) id (setCache id v).
Proof. intros s k Hne. simpl. by apply own_assign_ne. Qed.

Lemma writes_bind {A B} id (m : M W A) (k : A → M W B) :
  writesOnly id m → (∀ a, writesOnly id (k a)) → writesOnly id (bind m k).
Proof.
  intros Hm Hk s j Hne. unfold bind. specialize (Hm s j Hne).
  destruct (m s) as [[a|e] s1]; simpl in *; [|done].
  by rewrite Hk.
Qed.

Lemma writes_getChannelResult id : writesOnly id (getChannelResult id).
Proof.
  unfold getChannelResult, getChannelState.
  apply writes_bind; [|intros [cr|]; apply keeps_writesOnly; by intros s].
  apply writes_bind; [by apply keeps_writesOnly|intros c].
  apply writes_bind; [|intros _; by apply keeps_writesOnly, keeps_bind].
  destruct (readCache c id).
  - apply keeps_writesOnly, keeps_ret.
  - apply writes_bind; [apply keeps_writesOnly, keeps_callWallet|intros r].
    apply writes_setCache.
Qed.

Lemma writes_nextState st id att : writesOnly id (nextState st id att).
Proof.
  unfold nextState.
  apply writes_bind; [apply writes_getChannelResult|intros current].
  apply writes_bind; [apply keeps_writesOnly, keeps_liftPure|intros next].
  apply writes_bind; [apply keeps_writesOnly, keeps_callWallet|intros updated].
  destruct (outbox updated !! 0%nat).
  - apply writes_bind; [apply writes_setCache|intros _].
    apply keeps_writesOnly, keeps_ret.
  - apply keeps_writesOnly, keeps_throw.
Qed.

(** Everything [inputStateChannelMessage] does once the first channel
    result is in the cache keeps the cache. *)
Ltac keeps :=
  repeat first
    [ apply keeps_ret | apply keeps_throw | apply keeps_liftPure
    | apply keeps_info | apply keeps_callWallet
    | apply keeps_bind; [|intros ?]
    | match goal with
      | |- keepsCache (match ?x with _ => _ end) => destruct x
      | |- keepsCache (let _ := _ in _) => cbv zeta
      end ].

Lemma inputStateChannelMessage_cache message s :
  cachedState (snd (inputStateChannelMessage message s)) =
    match pushMessage (wallet s) (data message) with
    | (Returned pushed, _) =>
        match channelResults pushed !! 0%nat with
        | Some cr => assign (cachedState s) (channelId cr) (Some cr)
        | None => cachedState s
        end
    | (Thrown _, _) => cachedState s
    end.
Proof.
  unfold inputStateChannelMessage, bind at 1, callWallet at 1. simpl.
  destruct (pushMessage (wallet s) (data message)) as [[pushed|e] w1]; [|done].
  destruct (channelResults pushed !! 0%nat) as [cr|]; [|done].
  unfold bind at 1. simpl.
  match goal with |- cachedState (snd (?k ?s1)) = _ =>
    change (cachedState (snd (k s1)) = cachedState s1) end.
  match goal with |- cachedState (snd (?k ?s1)) = _ =>
    enough (keepsCache k) as Hk by apply Hk end.
  keeps.
Qed.

End Frame.

(** ** Runs of [inputStateChannelMessage] *)

(** The entry [firstSignedState] returns is a signed state exactly when the
    payload is a wallet message whose [signedStates] starts with one. *)
Lemma firstSignedState_defined m x :
  firstSignedState m = Returned (Some x) ↔
  ∃ rest, data m = DataWalletMessage {| signedStates := Some (Some x :: rest) |}.
Proof.
  unfold firstSignedState. split.
  - destruct (data m) as [states|[[l|]]]; try done.
    destruct l as [|[y|] rest]; try done.
    intros [= ->]. by exists rest.
  - by intros [rest ->].
Qed.

Lemma firstSignedState_returned m first :
  firstSignedState m = Returned first →
  ∃ states, data m = DataWalletMessage {| signedStates := Some states |} ∧
            first = at0 states.
Proof.
  unfold firstSignedState. destruct (data m) as [l|[[states|]]]; try done.
  intros [= <-]. by exists states.
Qed.

(** The total is zero exactly when every amount is. *)
Lemma totalOf_zero_all (items : list AllocationItem) :
  totalOf items = 0%N ↔ Forall (fun item => amount item = 0%N) items.
Proof.
  assert (∀ (l : list N) a, fold_left N.add l a = 0%N ↔ a = 0%N ∧ Forall (eq 0%N) l)
    as Hfold.
  { induction l as [|x l IH]; intros a; simpl.
    - split; [by intros ->|by intros [-> _]].
    - rewrite IH, Forall_cons. split.
      + intros [Ha Hl]. repeat split; [lia|lia|done].
      + by intros (-> & <- & Hl). }
  unfold totalOf. rewrite Hfold, Forall_map. split.
  - intros [_ Hall]. eapply Forall_impl; [exact Hall|]. by intros item <-.
  - intros Hall. split; [done|]. eapply Forall_impl; [exact Hall|]. by intros item ->.
Qed.

(** When the shortcut is taken, and when it is not. *)
Lemma zeroFundPostFund2State_taken out total p :
  zeroFundPostFund2State out total = Some p →
  ∃ item0 item1, out = [item0; item1] ∧ total = 0%N ∧ params item1 = Some p.
Proof.
  unfold zeroFundPostFund2State.
  destruct out as [|item0 [|item1 [|item2 rest]]]; simpl; try done.
  destruct (N.eqb_spec total 0); simpl; [|done].
  intros Hp. by exists item0, item1.
Qed.

Lemma zeroFundPostFund2State_skipped out total :
  zeroFundPostFund2State out total = None →
  ∀ item0 item1, out = [item0; item1] → total = 0%N → params item1 = None.
Proof.
  unfold zeroFundPostFund2State. intros Hnone item0 item1 -> ->. by simpl in Hnone.
Qed.

Lemma joinReply_returned j p r :
  joinReply j p = Returned r →
  ∃ joinedState postFund s0 s3,
    j = Some joinedState ∧ p = Some postFund ∧
    firstSignedState joinedState = Returned s0 ∧
    firstSignedState postFund = Returned s3 ∧
    r = Some {| sender := sender joinedState; recipient := recipient joinedState;
                data := DataWalletMessage {| signedStates := Some [s0; s3] |} |}.
Proof.
  unfold joinReply. destruct p as [postFund|]; [|done].
  destruct j as [joinedState|]; [|done].
  destruct (firstSignedState joinedState) as [s0|] eqn:H0; [|done].
  destruct (firstSignedState postFund) as [s3|] eqn:H3; [|done].
  intros [= <-]. by exists joinedState, postFund, s0, s3.
Qed.

Lemma unrecognized_branches st n :
  unrecognized st n = true →
  ChannelStatus_eqb st proposed && (n =? 0)%nat = false ∧
  ChannelStatus_eqb st running && (n =? 0)%nat = false ∧
  ChannelStatus_eqb st closed && (n =? 1)%nat = false.
Proof.
  unfold unrecognized. intros Hu.
  apply andb_prop in Hu as [Hu Hc]. apply andb_prop in Hu as [Hp Hr].
  by rewrite !negb_true_iff in *.
Qed.

#[local] Arguments zeroFundPostFund2State : simpl never.
#[local] Arguments joinReply : simpl never.
#[local] Arguments totalOf : simpl never.

Ltac step_run :=
  unfold inputStateChannelMessage, bind, callWallet, setCache, info, ret,
    throw, liftPure; simpl.

Section Ingestion.
Context {W : Type} `{Wallet W} `{Pure} `{Schema}.
Variables (s : ReceiptManager W) (message : WireMessage).
Variables (pushed : MultipleChannelResult) (w1 : W).
Hypothesis Hpush : pushMessage (wallet s) (data message) = (Returned pushed, w1).

Lemma run_no_channel_result :
  channelResults pushed = [] →
  inputStateChannelMessage message s =
    (Thrown NoChannelUpdate,
     {| wallet := w1; cachedState := cachedState s;
        calls := calls s ++ [CallPushMessage (data message)];
        infos := infos s |}).
Proof. intros Hnone. step_run. by rewrite Hpush, Hnone. Qed.

Variable cr : ChannelResult.
Hypothesis Hfirst : channelResults pushed !! 0%nat = Some cr.

Lemma run_unrecognized :
  unrecognized (status cr) (length (multiOutbox pushed)) = true →
  inputStateChannelMessage message s =
    (Thrown UnrecognizedProtocolTransition, ingested s (data message) w1 cr).
Proof.
  intros (Hp & Hr & Hc)%unrecognized_branches.
  step_run. rewrite Hpush, Hfirst. simpl. by rewrite Hp, Hr, Hc.
Qed.

Lemma run_acknowledged :
  status cr = running → multiOutbox pushed = [] →
  inputStateChannelMessage message s = (Returned None, ingested s (data message) w1 cr).
Proof.
  intros Hst Hout. step_run. rewrite Hpush, Hfirst. simpl. by rewrite Hst, Hout.
Qed.

Lemma run_closed item :
  status cr = closed → multiOutbox pushed = [item] →
  inputStateChannelMessage message s =
    (Returned (params item),
     {| wallet := w1;
        cachedState := assign (cachedState s) (channelId cr) (Some cr);
        calls := calls s ++ [CallPushMessage (data message)];
        infos := infos s ++ [("Closed channel", channelId cr)] |}).
Proof.
  intros Hst Hout. step_run. rewrite Hpush, Hfirst. simpl. by rewrite Hst, Hout.
Qed.

(** C7.  When the ingestion yields a channel result whose status is
    [closed] and an outbox of exactly one item, [inputStateChannelMessage]
    returns the payload of that item as it is. *)
Theorem closure_forwards_outbox_item item :
  status cr = closed → multiOutbox pushed = [item] →
  fst (inputStateChannelMessage message s) = Returned (params item).
Proof. intros Hst Hout. by rewrite (run_closed _ Hst Hout). Qed.

(** C8.  When the ingestion yields a channel result, that result is
    assigned to the cache under its identifier and is what the cache reads
    there when the run ends, whatever the outcome of the run; in particular
    a run that fails because no branch applies leaves the manager with the
    entry written. *)
Theorem ingestion_caches_first_result :
  cachedState (snd (inputStateChannelMessage message s))
    = assign (cachedState s) (channelId cr) (Some cr)
  ∧ readCache (cachedState (snd (inputStateChannelMessage message s))) (channelId cr)
    = Some (Result cr)
  ∧ (unrecognized (status cr) (length (multiOutbox pushed)) = true →
     inputStateChannelMessage message s =
       (Thrown UnrecognizedProtocolTransition, ingested s (data message) w1 cr)).
Proof.
  rewrite inputStateChannelMessage_cache, Hpush, Hfirst.
  split; [done|]. split; [apply readCache_assign|apply run_unrecognized].
Qed.

Section Join.
Hypothesis Hproposed : status cr = proposed.
Hypothesis Hempty : multiOutbox pushed = [].

Lemma run_join_rejected e w2 :
  joinChannel w1 cr = (Thrown e, w2) →
  fst (inputStateChannelMessage message s) = Thrown e.
Proof.
  intros Hjoin. step_run. rewrite Hpush, Hfirst. simpl.
  rewrite Hproposed, Hempty. simpl. by rewrite Hjoin.
Qed.

Variables (joined : SingleChannelResult) (w2 : W).
Hypothesis Hjoin : joinChannel w1 cr = (Returned joined, w2).

Lemma run_join_malformed :
  length (outbox joined) ≠ 1%nat → length (outbox joined) ≠ 2%nat →
  fst (inputStateChannelMessage message s) = Thrown MalformedJoinOutbox.
Proof.
  intros Hn1 Hn2. step_run. rewrite Hpush, Hfirst. simpl.
  rewrite Hproposed, Hempty. simpl. rewrite Hjoin. simpl.
  apply Nat.eqb_neq in Hn1, Hn2. by rewrite Hn1, Hn2.
Qed.

Variables (item0 : OutboxItem) (more : list OutboxItem).
Hypothesis Hitems : outbox joined = item0 :: more.
Hypothesis Hmore : (length more ≤ 1)%nat.

Lemma run_join_no_allocation :
  allocations cr = [] →
  fst (inputStateChannelMessage message s) = Thrown TypeError.
Proof.
  intros Hnone. step_run. rewrite Hpush, Hfirst. simpl.
  rewrite Hproposed, Hempty. simpl. rewrite Hjoin. simpl.
  rewrite Hitems, Hnone.
  by destruct more as [|item1 [|]]; simpl in *; [| |lia].
Qed.

Variables (allocation0 : Allocation) (others : list Allocation).
Hypothesis Hallocs : allocations cr = allocation0 :: others.

Local Abbreviation total := (totalOf (allocationItems allocation0)).

(** The shortcut: no funding call. *)
Lemma run_join_shortcut postFund :
  zeroFundPostFund2State (outbox joined) total = Some postFund →
  inputStateChannelMessage message s =
    (joinReply (params item0) (Some postFund),
     afterJoin s (data message) w2 cr).
Proof.
  intros Hzero. step_run. rewrite Hpush, Hfirst. simpl.
  rewrite Hproposed, Hempty. simpl. rewrite Hjoin. simpl.
  rewrite Hallocs. simpl. rewrite Hzero, Hitems.
  by destruct more as [|item1 [|]]; simpl in *; [| |lia].
Qed.

(** No shortcut: one funding call, for the token and the total of the
    first allocation. *)
Lemma run_join_funding r w3 :
  zeroFundPostFund2State (outbox joined) total = None →
  updateChannelFunding w2 (channelId cr) (token allocation0) total = (r, w3) →
  inputStateChannelMessage message s =
    (match r with
     | Thrown e => Thrown e
     | Returned funded =>
         match outbox funded !! 0%nat with
         | None => Thrown TypeError
         | Some item => joinReply (params item0) (params item)
         end
     end,
     afterFunding s (data message) w3 cr (token allocation0) total).
Proof.
  intros Hzero Hfund. step_run. rewrite Hpush, Hfirst. simpl.
  rewrite Hproposed, Hempty. simpl. rewrite Hjoin. simpl.
  rewrite Hallocs. simpl. rewrite Hzero, Hitems.
  destruct more as [|item1 [|]]; simpl in *; [| |lia];
    rewrite Hfund;
    (destruct r as [funded|e]; [|done]); simpl;
    by destruct (outbox funded !! 0%nat).
Qed.

(** The guard on [postFund2State] fires when the first outbox item of
    the funding call has no payload ... *)
Lemma run_join_funding_no_payload funded w3 item rest :
  zeroFundPostFund2State (outbox joined) total = None →
  updateChannelFunding w2 (channelId cr) (token allocation0) total
    = (Returned funded, w3) →
  outbox funded = item :: rest → params item = None →
  fst (inputStateChannelMessage message s) = Thrown UndefinedPostFundState.
Proof.
  intros Hzero Hfund Hout Hnone.
  rewrite (run_join_funding _ _ Hzero Hfund), Hout. simpl. by rewrite Hnone.
Qed.

(** ... and not when the outbox of the funding call is empty: reading
    the payload of its first item is then a [TypeError]. *)
Lemma run_join_funding_empty_outbox funded w3 :
  zeroFundPostFund2State (outbox joined) total = None →
  updateChannelFunding w2 (channelId cr) (token allocation0) total
    = (Returned funded, w3) →
  outbox funded = [] →
  fst (inputStateChannelMessage message s) = Thrown TypeError.
Proof.
  intros Hzero Hfund Hout.
  by rewrite (run_join_funding _ _ Hzero Hfund), Hout.
Qed.

(** C3, as the code has it.  A channel result with more than one
    allocation is not rejected.  The join branch reads the first
    allocation only: its items give the total that decides the shortcut,
    and the funding call, when there is one, carries its token and that
    total.  The outcome and the manager left behind do not mention the
    other allocations. *)
Theorem join_reads_first_allocation_only :
  others ≠ [] →
  match zeroFundPostFund2State (outbox joined) total with
  | Some postFund =>
      inputStateChannelMessage message s =
        (joinReply (params item0) (Some postFund),
         afterJoin s (data message) w2 cr)
  | None =>
      ∀ r w3,
        updateChannelFunding w2 (channelId cr) (token allocation0) total = (r, w3) →
        inputStateChannelMessage message s =
          (match r with
           | Thrown e => Thrown e
           | Returned funded =>
               match outbox funded !! 0%nat with
               | None => Thrown TypeError
               | Some item => joinReply (params item0) (params item)
               end
           end,
           afterFunding s (data message) w3 cr (token allocation0) total)
  end.
Proof.
  intros _.
  destruct (zeroFundPostFund2State (outbox joined) total) as [postFund|] eqn:Hzero.
  - by apply run_join_shortcut.
  - intros r w3 Hfund. by apply run_join_funding.
Qed.


End Join.

(** C5, as the code has it.  Whenever the join branch returns, it returns a
    message whose payload holds exactly two entries: what stands at index 0
    of the signed states of the first outbox item of the join, and then what
    stands at index 0 of the signed states of the post-fund payload; each is
    a signed state when its array is not empty, and [undefined] otherwise.
    The sender and the recipient are those of the first outbox item of the
    join. *)
Theorem join_reply_shape r :
  status cr = proposed → multiOutbox pushed = [] →
  fst (inputStateChannelMessage message s) = Returned r →
  ∃ joined w2 item0 joinedState postFund states0 states3,
    joinChannel w1 cr = (Returned joined, w2) ∧
    outbox joined !! 0%nat = Some item0 ∧
    params item0 = Some joinedState ∧
    isPostFund2State w2 cr (outbox joined) postFund ∧
    data joinedState = DataWalletMessage {| signedStates := Some states0 |} ∧
    data postFund = DataWalletMessage {| signedStates := Some states3 |} ∧
    r = Some {| sender := sender joinedState;
                recipient := recipient joinedState;
                data := DataWalletMessage
                          {| signedStates := Some [at0 states0; at0 states3] |} |}.
Proof.
  intros Hst Hout Hrun.
  destruct (joinChannel w1 cr) as [[joined|e] w2] eqn:Hjoin;
    [|by rewrite (run_join_rejected Hst Hout _ _ Hjoin) in Hrun].
  destruct (outbox joined) as [|item0 more] eqn:Hitems.
  { rewrite (run_join_malformed Hst Hout _ _ Hjoin) in Hrun;
      by rewrite ?Hitems. }
  destruct (decide (length more ≤ 1)%nat) as [Hmore|Hmore].
  2:{ rewrite (run_join_malformed Hst Hout _ _ Hjoin) in Hrun;
        rewrite ?Hitems; simpl; [done|lia|lia]. }
  destruct (allocations cr) as [|allocation0 others] eqn:Hallocs.
  { by rewrite (run_join_no_allocation Hst Hout _ _ Hjoin _ _ Hitems Hmore Hallocs)
      in Hrun. }
  destruct (zeroFundPostFund2State (outbox joined)
              (totalOf (allocationItems allocation0))) as [postFund|] eqn:Hzero.
  - rewrite (run_join_shortcut Hst Hout _ _ Hjoin _ _ Hitems Hmore _ _ Hallocs
               _ Hzero) in Hrun.
    simpl in Hrun. apply joinReply_returned in Hrun
      as (joinedState & pf & s0 & s3 & Hj & [= <-] & Hs0 & Hs3 & ->).
    apply firstSignedState_returned in Hs0 as (states0 & Hd0 & ->).
    apply firstSignedState_returned in Hs3 as (states3 & Hd3 & ->).
    exists joined, w2, item0, joinedState, postFund, states0, states3.
    repeat split; try done; [by rewrite Hitems|].
    exists allocation0. rewrite Hallocs. split; [done|]. left.
    rewrite Hitems in Hzero.
    apply zeroFundPostFund2State_taken in Hzero as (i0 & i1 & Hout2 & Hfree & Hp).
    exists i0, i1. rewrite Hitems. by rewrite <- totalOf_zero_all.
  - destruct (updateChannelFunding w2 (channelId cr) (token allocation0)
                (totalOf (allocationItems allocation0))) as [res w3] eqn:Hfund.
    rewrite (run_join_funding Hst Hout _ _ Hjoin _ _ Hitems Hmore _ _ Hallocs
               _ _ Hzero Hfund) in Hrun.
    simpl in Hrun. destruct res as [funded|e]; [|done].
    destruct (outbox funded !! 0%nat) as [item|] eqn:Hitem; [|done].
    apply joinReply_returned in Hrun
      as (joinedState & postFund & s0 & s3 & Hj & Hp & Hs0 & Hs3 & ->).
    apply firstSignedState_returned in Hs0 as (states0 & Hd0 & ->).
    apply firstSignedState_returned in Hs3 as (states3 & Hd3 & ->).
    exists joined, w2, item0, joinedState, postFund, states0, states3.
    repeat split; try done; [by rewrite Hitems|].
    exists allocation0. rewrite Hallocs. split; [done|]. right. split.
    + intros i0 i1 Hout2 Hfree%totalOf_zero_all.
      by apply (zeroFundPostFund2State_skipped _ _ Hzero i0 i1).
    + by exists funded, w3, item.
Qed.

End Ingestion.

(** ** Resolution and settlement *)

Section Settlement.
Context {W : Type} `{Wallet W} `{Pure} `{Schema}.
Implicit Types (s : ReceiptManager W) (id : string).

Lemma getChannelResult_unresolvable s id r w' :
  readCache (cachedState s) id = None →
  getState (wallet s) id = (Returned r, w') →
  channelResult r = None →
  fst (getChannelResult id s) = Thrown (ChannelNotFound id).
Proof.
  intros Hmiss Hget Hnone. unfold getChannelResult, bind.
  by rewrite (getChannelState_miss _ _ _ _ Hmiss Hget), Hnone.
Qed.

(** [getExistingChannelId] throws where the wallet knows no channel ... *)
Lemma getExistingChannelId_unresolvable s message id r w' :
  derivedId message = Some id →
  readCache (cachedState s) id = None →
  getState (wallet s) id = (Returned r, w') →
  channelResult r = None →
  fst (getExistingChannelId message s) = Thrown (ChannelNotFound id).
Proof.
  unfold derivedId, getExistingChannelId. intros Hid Hmiss Hget Hnone.
  unfold bind, liftPure.
  destruct (calculateChannelId _) as [id'|e]; [|done].
  injection Hid as ->.
  pose proof (getChannelResult_unresolvable _ _ _ _ Hmiss Hget Hnone) as Hres.
  destruct (getChannelResult id s) as [[cr|err] s1]; simpl in *; congruence.
Qed.

(** ... and so never returns without an identifier. *)
Lemma getExistingChannelId_never_undefined s message :
  fst (getExistingChannelId message s) ≠ Returned None.
Proof.
  unfold getExistingChannelId, bind, liftPure.
  destruct (calculateChannelId _) as [id|e]; [|done].
  by destruct (getChannelResult id s) as [[cr|e] s1].
Qed.

(** The identifier it returns is the derived one, and the cache then reads
    a truthy value for it. *)
Lemma getExistingChannelId_returned s message id :
  fst (getExistingChannelId message s) = Returned (Some id) →
  derivedId message = Some id ∧
  ∃ e, readCache (cachedState (snd (getExistingChannelId message s))) id = Some e.
Proof.
  unfold derivedId, getExistingChannelId, bind, liftPure.
  destruct (calculateChannelId _) as [id'|e]; [|done].
  unfold getChannelResult, bind.
  destruct (getChannelState id' s) as [[[cr|]|e] s1] eqn:Hstate; simpl; try done.
  intros [= ->]. split; [done|]. exists cr.
  by apply (getChannelState_cached _ _ _ _ Hstate).
Qed.

(** [nextState] goes from the resolution to the update without looking at
    the status. *)
Lemma run_nextState st id att s e s1 next r w' :
  getChannelResult id s = (Returned e, s1) →
  computeNextState (entryAppData e) (entryAllocations e)
    {| toStateType := st; queryRequestCID := "";
       attestation := inputAttestation att |} = Returned next →
  updateChannel (wallet s1) id (nextAppData next) (nextAllocation next) = (r, w') →
  nextState st id att s = afterUpdate s1 id next r w'.
Proof.
  intros Hres Hnext Hupd. unfold nextState, bind at 1. rewrite Hres.
  unfold bind at 1, liftPure at 1. rewrite Hnext.
  unfold bind at 1, callWallet. rewrite Hupd.
  unfold afterUpdate. destruct r as [updated|err]; [|done].
  by destruct (outbox updated !! 0%nat).
Qed.

Lemma run_nextState_unresolved st id att s e s1 :
  getChannelResult id s = (Thrown e, s1) →
  nextState st id att s = (Thrown e, s1).
Proof. intros Hres. unfold nextState, bind at 1. by rewrite Hres. Qed.

(** C2, as the code has it.  A channel result whose status is not
    [running] is not rejected: [provideAttestation] and [declineQuery]
    compute the next state from its application data and allocations and
    call the wallet's update with it; what they return and leave behind is
    what that call gives. *)
Theorem settlement_does_not_check_status s id att cr s1 :
  getChannelResult id s = (Returned (Result cr), s1) →
  status cr ≠ running →
  (∀ next r w',
     computeNextState (Some (appData cr)) (Some (allocations cr))
       {| toStateType := AttestationProvided; queryRequestCID := "";
          attestation := att |} = Returned next →
     updateChannel (wallet s1) id (nextAppData next) (nextAllocation next) = (r, w') →
     provideAttestation id att s = afterUpdate s1 id next r w')
  ∧ (∀ next r w',
     computeNextState (Some (appData cr)) (Some (allocations cr))
       {| toStateType := QueryDeclined; queryRequestCID := "";
          attestation := {| responseCID := ""; signature := "" |} |} = Returned next →
     updateChannel (wallet s1) id (nextAppData next) (nextAllocation next) = (r, w') →
     declineQuery id s = afterUpdate s1 id next r w').
Proof.
  intros Hres _. split; intros next r w' Hnext Hupd.
  - by apply (run_nextState _ _ (Some att) _ _ _ _ _ _ Hres).
  - by apply (run_nextState _ _ None _ _ _ _ _ _ Hres).
Qed.

(** C9.  Once a channel result is cached for an identifier, resolving the
    identifier returns that result and leaves the manager as it is, any
    number of times in a row: the cache is not written and the wallet is
    not called. *)
Theorem cached_resolution_is_idempotent s id cr n :
  readCache (cachedState s) id = Some (Result cr) →
  getChannelState id s = (Returned (Some (Result cr)), s) ∧
  resolveTimes n id s = (Returned (replicate n (Result cr)), s) ∧
  calls (snd (resolveTimes n id s)) = calls s.
Proof.
  intros Hhit. split; [by apply getChannelState_hit|].
  by rewrite (resolveTimes_hit n _ _ _ Hhit).
Qed.

(** C10, as the code has it.  An operation whose channel identifier is not
    [__proto__] leaves what the cache reads at every other key as it was:
    the identifier is that of the first channel result of the ingestion for
    [inputStateChannelMessage] and the one given for [provideAttestation]
    and [declineQuery]; [getExistingChannelId] does so for every derived
    identifier.  Whatever the identifier, no operation changes or removes
    the own entry of another key. *)
Theorem operations_write_one_entry s message id att (k : string) :
  (ingestedId s message ≠ Some k → ingestedId s message ≠ Some "__proto__" →
     readCache (cachedState (snd (inputStateChannelMessage message s))) k
       = readCache (cachedState s) k)
  ∧ (k ≠ id → id ≠ "__proto__" →
     readCache (cachedState (snd (provideAttestation id att s))) k
       = readCache (cachedState s) k)
  ∧ (k ≠ id → id ≠ "__proto__" →
     readCache (cachedState (snd (declineQuery id s))) k = readCache (cachedState s) k)
  ∧ (derivedId message ≠ Some k →
     readCache (cachedState (snd (getExistingChannelId message s))) k
       = readCache (cachedState s) k)
  ∧ (ingestedId s message ≠ Some k →
     own (cachedState (snd (inputStateChannelMessage message s))) !! k
       = own (cachedState s) !! k)
  ∧ (k ≠ id →
     own (cachedState (snd (provideAttestation id att s))) !! k = own (cachedState s) !! k)
  ∧ (k ≠ id →
     own (cachedState (snd (declineQuery id s))) !! k = own (cachedState s) !! k)
  ∧ (derivedId message ≠ Some k →
     own (cachedState (snd (getExistingChannelId message s))) !! k
       = own (cachedState s) !! k).
Proof.
  assert (∀ i, derivedId message = Some i → writesOnly i (getExistingChannelId message))
    as Hwrites.
  { unfold derivedId, getExistingChannelId. intros i Hi s' j Hne.
    unfold bind, liftPure.
    destruct (calculateChannelId _) as [id'|e]; [|done].
    injection Hi as ->.
    pose proof (writes_getChannelResult i s' j Hne) as Hres.
    by destruct (getChannelResult i s') as [[cr|e] s1]. }
  repeat apply conj.
  - unfold ingestedId. rewrite inputStateChannelMessage_cache.
    destruct (pushMessage (wallet s) (data message)) as [[pushed|e] w1]; [|done].
    destruct (channelResults pushed !! 0%nat) as [cr|]; [|done].
    simpl. intros Hne Hproto. apply readCache_assign_ne; congruence.
  - intros Hne Hproto. by apply touches_nextState.
  - intros Hne Hproto. by apply touches_nextState.
  - destruct (derivedId message) as [id'|] eqn:Hid.
    + intros Hne. apply (touches_getExistingChannelId _ _ Hid). congruence.
    + intros _. by rewrite (keeps_getExistingChannelId _ Hid).
  - unfold ingestedId. rewrite inputStateChannelMessage_cache.
    destruct (pushMessage (wallet s) (data message)) as [[pushed|e] w1]; [|done].
    destruct (channelResults pushed !! 0%nat) as [cr|]; [|done].
    simpl. intros Hne. apply own_assign_ne. congruence.
  - apply writes_nextState.
  - apply writes_nextState.
  - destruct (derivedId message) as [id'|] eqn:Hid.
    + intros Hne. apply (Hwrites id' eq_refl). congruence.
    + intros _. by rewrite (keeps_getExistingChannelId _ Hid).
Qed.

End Settlement.

(** ** The operations on concrete inputs *)

(** A key that names a method of [Object.prototype] reads as truthy in an
    empty cache and is taken as a hit: no fetch is made and what is
    returned is not a channel result. *)
Lemma inherited_key_is_a_hit :
  readCache emptyCache "constructor" = Some Foreign ∧
  getChannelResult "constructor" (fresh deafWallet) = (Returned Foreign, fresh deafWallet) ∧
  readCache emptyCache "1/payer/indexer" = None.
Proof. by vm_compute. Qed.

(** C1 at an input where it fails.  The identifier derived from the message
    is not in the cache and the wallet answers the fetch without a channel
    result: [getExistingChannelId] throws the error of [getChannelResult]
    where the claim has it return without an identifier. *)
Theorem unresolvable_channel_raises :
  derivedId statesMessage = Some "1/payer/indexer" ∧
  readCache (cachedState unknownManager) "1/payer/indexer" = None ∧
  fst (getState (wallet unknownManager) "1/payer/indexer")
    = Returned {| channelResult := None; outbox := [] |} ∧
  fst (getExistingChannelId statesMessage unknownManager)
    = Thrown (JsError "No channel result for channelId 1/payer/indexer.").
Proof. by vm_compute. Qed.

(** C2 fails on a cached channel whose status is [proposed]: both operations
    call the wallet's update and return its message. *)
Lemma proposed_channel_is_updated :
  status freeChannel ≠ running ∧
  readCache (cachedState proposedManager) "1/payer/indexer" = Some (Result freeChannel) ∧
  fst (provideAttestation "1/payer/indexer" attestation0 proposedManager)
    = Returned (Some (wireOf state3)) ∧
  calls (snd (provideAttestation "1/payer/indexer" attestation0 proposedManager))
    = [CallUpdateChannel "1/payer/indexer" "Qm123" (allocations freeChannel)] ∧
  fst (declineQuery "1/payer/indexer" proposedManager)
    = Returned (Some (wireOf state3)) ∧
  existsb isUpdateChannel (calls (snd (declineQuery "1/payer/indexer" proposedManager)))
    = true.
Proof. by vm_compute. Qed.

(** The same run, through the theorem. *)
Lemma settlement_does_not_check_status_witness :
  provideAttestation "1/payer/indexer" attestation0 proposedManager
    = afterUpdate proposedManager "1/payer/indexer"
        {| nextAppData := "Qm123"; nextAllocation := allocations freeChannel |}
        (onUpdateChannel (wallet proposedManager) "1/payer/indexer" "Qm123"
           (allocations freeChannel))
        (wallet proposedManager)
  ∧ declineQuery "1/payer/indexer" proposedManager
    = afterUpdate proposedManager "1/payer/indexer"
        {| nextAppData := ""; nextAllocation := allocations freeChannel |}
        (onUpdateChannel (wallet proposedManager) "1/payer/indexer" ""
           (allocations freeChannel))
        (wallet proposedManager).
Proof.
  destruct (settlement_does_not_check_status proposedManager "1/payer/indexer"
              attestation0 freeChannel proposedManager) as [Hprovide Hdecline].
  - reflexivity.
  - discriminate.
  - split; [apply Hprovide|apply Hdecline]; reflexivity.
Defined.

(** C3 fails on a channel result with two allocations: the join branch
    returns its message, and funds the channel with the token and the total
    of the first allocation. *)
Lemma two_allocations_are_joined :
  length (allocations twoAllocations) = 2%nat ∧
  fst (inputStateChannelMessage inbound (fresh twoAllocationsWallet))
    = Returned (Some {| sender := "indexer"; recipient := "payer";
                        data := DataWalletMessage
                                  {| signedStates := Some [Some state0; Some state3] |} |}) ∧
  calls (snd (inputStateChannelMessage inbound (fresh twoAllocationsWallet)))
    = [CallPushMessage (data inbound); CallJoinChannel twoAllocations;
       CallUpdateChannelFunding "1/payer/indexer" "0xtok" 5].
Proof. by vm_compute. Qed.

(** The same run, through the theorem: the funding call names the first
    allocation. *)
Lemma join_reads_first_allocation_only_witness :
  inputStateChannelMessage inbound (fresh twoAllocationsWallet)
    = (joinReply (params (itemOf state0)) (params (itemOf state3)),
       afterFunding (fresh twoAllocationsWallet) (data inbound) twoAllocationsWallet
         twoAllocations "0xtok" 5).
Proof.
  pose proof (join_reads_first_allocation_only (fresh twoAllocationsWallet) inbound
                (pushedOf twoAllocations []) twoAllocationsWallet eq_refl
                twoAllocations eq_refl eq_refl eq_refl
                (joinedOf twoAllocations [itemOf state0]) twoAllocationsWallet eq_refl
                (itemOf state0) [] eq_refl (Nat.le_0_l 1)
                (alloc "0xtok" [5; 0]%N) [alloc "0xother" [7]%N] eq_refl) as Hrun.
  simpl in Hrun.
  apply (Hrun ltac:(discriminate)
           (Returned {| channelResult := Some twoAllocations; outbox := [itemOf state3] |})
           twoAllocationsWallet eq_refl).
Defined.



(** C5 fails when the first outbox item of the join carries no signed
    state: the reply holds [undefined] where the countersigned turn-0 state
    should stand. *)
Lemma join_reply_may_hold_undefined :
  params unsignedItem
    = Some {| sender := "indexer"; recipient := "payer";
              data := DataWalletMessage {| signedStates := Some [] |} |} ∧
  fst (inputStateChannelMessage inbound (fresh unsignedJoinWallet))
    = Returned (Some {| sender := "indexer"; recipient := "payer";
                        data := DataWalletMessage
                                  {| signedStates := Some [None; Some state3] |} |}).
Proof. by vm_compute. Qed.

(** The reply to the proposal of a paid channel joined with two outbox
    items: the post-fund state is that of the funding call, not the second
    item of the join. *)
Lemma join_reply_shape_witness :
  ∃ joined w2 item0 joinedState postFund states0 states3,
    joinChannel paidTwoItemsWallet paidChannel = (Returned joined, w2) ∧
    outbox joined !! 0%nat = Some item0 ∧
    params item0 = Some joinedState ∧
    isPostFund2State w2 paidChannel (outbox joined) postFund ∧
    data joinedState = DataWalletMessage {| signedStates := Some states0 |} ∧
    data postFund = DataWalletMessage {| signedStates := Some states3 |} ∧
    Some {| sender := "indexer"; recipient := "payer";
            data := DataWalletMessage
                      {| signedStates := Some [Some state0; Some state3] |} |}
      = Some {| sender := sender joinedState;
                recipient := recipient joinedState;
                data := DataWalletMessage
                          {| signedStates := Some [at0 states0; at0 states3] |} |}.
Proof.
  exact (join_reply_shape (fresh paidTwoItemsWallet) inbound
           (pushedOf paidChannel []) paidTwoItemsWallet eq_refl
           paidChannel eq_refl _ eq_refl eq_refl eq_refl).
Defined.

(** C6 at an input where it fails.  A paid channel is joined and the wallet
    answers the funding call with an empty outbox: the run throws a
    [TypeError] on reading the payload of the first outbox item, before the
    check that throws [UndefinedPostFundState]. *)
Theorem empty_funding_outbox_raises_TypeError :
  status paidChannel = proposed ∧
  zeroFundPostFund2State [itemOf state0] 5 = None ∧
  fst (updateChannelFunding emptyFundingWallet "1/payer/indexer" "0xtok" 5)
    = Returned {| channelResult := Some paidChannel; outbox := [] |} ∧
  fst (inputStateChannelMessage inbound (fresh emptyFundingWallet)) = Thrown TypeError ∧
  fst (inputStateChannelMessage inbound (fresh emptyFundingWallet))
    ≠ Thrown UndefinedPostFundState.
Proof. by vm_compute. Qed.

(** A closure is forwarded. *)
Lemma closure_forwards_outbox_item_witness :
  fst (inputStateChannelMessage inbound (fresh closingWallet))
    = Returned (Some (wireOf finalState)).
Proof.
  exact (closure_forwards_outbox_item (fresh closingWallet) inbound
           (pushedOf closedChannel [itemOf finalState]) closingWallet eq_refl
           closedChannel eq_refl (itemOf finalState) eq_refl eq_refl).
Defined.

(** A proposed channel with a one-item outbox matches no branch; its result
    is cached all the same. *)
Lemma ingestion_caches_first_result_witness :
  cachedState (snd (inputStateChannelMessage inbound (fresh strayWallet)))
    = assign emptyCache "1/payer/indexer" (Some freeChannel)
  ∧ readCache (cachedState (snd (inputStateChannelMessage inbound (fresh strayWallet))))
      "1/payer/indexer" = Some (Result freeChannel)
  ∧ inputStateChannelMessage inbound (fresh strayWallet)
    = (Thrown UnrecognizedProtocolTransition,
       ingested (fresh strayWallet) (data inbound) strayWallet freeChannel).
Proof.
  pose proof (ingestion_caches_first_result (fresh strayWallet) inbound
                (pushedOf freeChannel [itemOf state0]) strayWallet eq_refl
                freeChannel eq_refl) as (Hcache & Hread & Hrun).
  split; [exact Hcache|]. split; [exact Hread|exact (Hrun eq_refl)].
Defined.

(** Three resolutions of a cached channel. *)
Lemma cached_resolution_is_idempotent_witness :
  getChannelState "1/payer/indexer" proposedManager
    = (Returned (Some (Result freeChannel)), proposedManager) ∧
  resolveTimes 3 "1/payer/indexer" proposedManager
    = (Returned [Result freeChannel; Result freeChannel; Result freeChannel],
       proposedManager) ∧
  calls (snd (resolveTimes 3 "1/payer/indexer" proposedManager)) = [].
Proof.
  exact (cached_resolution_is_idempotent proposedManager "1/payer/indexer"
           freeChannel 3 eq_refl).
Defined.

(** C10 fails when the channel identifier is [__proto__]: the assignment
    replaces the prototype of the cache object, and a key that read
    [undefined] then reads a property of the channel result. *)
Lemma prototype_assignment_changes_other_keys :
  ingestedId (fresh protoWallet) inbound = Some "__proto__" ∧
  fst (inputStateChannelMessage inbound (fresh protoWallet)) = Returned None ∧
  readCache (cachedState (fresh protoWallet)) "status" = None ∧
  readCache (cachedState (snd (inputStateChannelMessage inbound (fresh protoWallet))))
    "status" = Some Foreign.
Proof. by vm_compute. Qed.

(** The entry of another channel, held next to the one each operation
    writes, through each of the four operations. *)
Lemma operations_write_one_entry_witness :
  readCache (cachedState (snd (inputStateChannelMessage inbound
                                 (besideNeighbour strayWallet)))) "0xneighbour"
    = Some (Result neighbourChannel)
  ∧ readCache (cachedState (snd (provideAttestation "1/payer/indexer" attestation0
                                   (besideNeighbour (servingWallet runningChannel)))))
      "0xneighbour" = Some (Result neighbourChannel)
  ∧ readCache (cachedState (snd (declineQuery "1/payer/indexer"
                                   (besideNeighbour (servingWallet runningChannel)))))
      "0xneighbour" = Some (Result neighbourChannel)
  ∧ readCache (cachedState (snd (getExistingChannelId statesMessage
                                   (besideNeighbour (knowingWallet runningChannel)))))
      "0xneighbour" = Some (Result neighbourChannel)
  ∧ own (cachedState (snd (inputStateChannelMessage inbound
                             (besideNeighbour strayWallet)))) !! "0xneighbour"
    = Some (Some neighbourChannel)
  ∧ own (cachedState (snd (provideAttestation "1/payer/indexer" attestation0
                             (besideNeighbour (servingWallet runningChannel)))))
      !! "0xneighbour" = Some (Some neighbourChannel)
  ∧ own (cachedState (snd (declineQuery "1/payer/indexer"
                             (besideNeighbour (servingWallet runningChannel)))))
      !! "0xneighbour" = Some (Some neighbourChannel)
  ∧ own (cachedState (snd (getExistingChannelId statesMessage
                             (besideNeighbour (knowingWallet runningChannel)))))
      !! "0xneighbour" = Some (Some neighbourChannel).
Proof.
  pose proof (operations_write_one_entry (besideNeighbour strayWallet) inbound
                "1/payer/indexer" attestation0 "0xneighbour")
    as (Hinput & _ & _ & _ & Hinput' & _).
  pose proof (operations_write_one_entry
                (besideNeighbour (servingWallet runningChannel)) inbound
                "1/payer/indexer" attestation0 "0xneighbour")
    as (_ & Hprovide & Hdecline & _ & _ & Hprovide' & Hdecline' & _).
  pose proof (operations_write_one_entry
                (besideNeighbour (knowingWallet runningChannel)) statesMessage
                "1/payer/indexer" attestation0 "0xneighbour")
    as (_ & _ & _ & Hexisting & _ & _ & _ & Hexisting').
  repeat apply conj.
  - rewrite Hinput; [reflexivity|vm_compute; discriminate|vm_compute; discriminate].
  - rewrite Hprovide; [reflexivity|discriminate|discriminate].
  - rewrite Hdecline; [reflexivity|discriminate|discriminate].
  - rewrite Hexisting; [reflexivity|vm_compute; discriminate].
  - rewrite Hinput'; [reflexivity|vm_compute; discriminate].
  - rewrite Hprovide'; [reflexivity|discriminate].
  - rewrite Hdecline'; [reflexivity|discriminate].
  - rewrite Hexisting'; [reflexivity|vm_compute; discriminate].
Defined.

(** * Further properties of the lifecycle controller *)

Section IngestionFailures.
Context {W : Type} `{Wallet W} `{Pure} `{Schema}.
Variables (s : ReceiptManager W) (message : WireMessage).

(** X1.  A rejection of the ingestion by the wallet is rethrown as it is;
    the cache and the log are not written and no other wallet call is
    made. *)
Theorem ingestion_rejection_propagates e w1 :
  pushMessage (wallet s) (data message) = (Thrown e, w1) →
  inputStateChannelMessage message s =
    (Thrown e,
     {| wallet := w1; cachedState := cachedState s;
        calls := calls s ++ [CallPushMessage (data message)];
        infos := infos s |}).
Proof. intros Hpush. step_run. by rewrite Hpush. Qed.

Variables (pushed : MultipleChannelResult) (w1 : W).
Hypothesis Hpush : pushMessage (wallet s) (data message) = (Returned pushed, w1).

(** X2.  An ingestion that yields no channel result fails with the error
    "Received a new state that did nothing", whatever its outbox holds, and
    leaves the cache as it was. *)
Theorem ingestion_without_result_fails :
  channelResults pushed = [] →
  inputStateChannelMessage message s =
    (Thrown (JsError "Received a new state that did nothing"),
     {| wallet := w1; cachedState := cachedState s;
        calls := calls s ++ [CallPushMessage (data message)];
        infos := infos s |}).
Proof. intros Hnone. by rewrite (run_no_channel_result _ _ _ _ Hpush Hnone). Qed.

Variable cr : ChannelResult.
Hypothesis Hfirst : channelResults pushed !! 0%nat = Some cr.

(** X3.  A running channel with an empty outbox is acknowledged in silence:
    no message is returned, nothing is logged and the ingestion is the only
    wallet call; the channel result is cached. *)
Theorem acknowledgement_is_silent :
  status cr = running → multiOutbox pushed = [] →
  inputStateChannelMessage message s =
    (Returned None,
     {| wallet := w1;
        cachedState := assign (cachedState s) (channelId cr) (Some cr);
        calls := calls s ++ [CallPushMessage (data message)];
        infos := infos s |}).
Proof. intros Hst Hout. by rewrite (run_acknowledged _ _ _ _ Hpush _ Hfirst Hst Hout). Qed.

(** X4.  A channel result whose status is none of [proposed], [running] and
    [closed] is rejected whatever the outbox holds, with the ingestion as
    the only wallet call. *)
Theorem unhandled_status_is_rejected :
  status cr ≠ proposed → status cr ≠ running → status cr ≠ closed →
  inputStateChannelMessage message s =
    (Thrown UnrecognizedProtocolTransition, ingested s (data message) w1 cr).
Proof.
  intros Hp Hr Hc. apply (run_unrecognized _ _ _ _ Hpush _ Hfirst).
  unfold unrecognized. by destruct (status cr).
Qed.

(** X5.  A proposed channel is joined only when the ingestion left nothing
    to send: with a non-empty outbox the run is rejected and the wallet's
    join is not called. *)
Theorem proposal_with_outbox_is_not_joined :
  status cr = proposed → multiOutbox pushed ≠ [] →
  inputStateChannelMessage message s =
    (Thrown UnrecognizedProtocolTransition, ingested s (data message) w1 cr).
Proof.
  intros Hst Hout. apply (run_unrecognized _ _ _ _ Hpush _ Hfirst).
  unfold unrecognized. rewrite Hst. by destruct (multiOutbox pushed).
Qed.

(** X6.  A closed channel is forwarded only with exactly one outbox item:
    with none, or with two or more, the run is rejected. *)
Theorem closure_needs_one_outbox_item :
  status cr = closed → length (multiOutbox pushed) ≠ 1%nat →
  inputStateChannelMessage message s =
    (Thrown UnrecognizedProtocolTransition, ingested s (data message) w1 cr).
Proof.
  intros Hst Hout. apply (run_unrecognized _ _ _ _ Hpush _ Hfirst).
  unfold unrecognized. rewrite Hst. simpl.
  apply Nat.eqb_neq in Hout. by rewrite Hout.
Qed.

Hypothesis Hproposed : status cr = proposed.
Hypothesis Hempty : multiOutbox pushed = [].

(** X7.  A rejection of the join by the wallet is rethrown as it is; the
    channel result stays cached and nothing is logged. *)
Theorem join_rejection_keeps_cache e w2 :
  joinChannel w1 cr = (Thrown e, w2) →
  inputStateChannelMessage message s =
    (Thrown e,
     {| wallet := w2;
        cachedState := assign (cachedState s) (channelId cr) (Some cr);
        calls := (calls s ++ [CallPushMessage (data message)]) ++ [CallJoinChannel cr];
        infos := infos s |}).
Proof.
  intros Hjoin. step_run. rewrite Hpush, Hfirst. simpl.
  rewrite Hproposed, Hempty. simpl. by rewrite Hjoin.
Qed.

Variables (joined : SingleChannelResult) (w2 : W).
Hypothesis Hjoin : joinChannel w1 cr = (Returned joined, w2).

(** X8.  A join that yields no outbox item, or more than two, fails with
    the error "Expected one or two outbox items after joining channel";
    nothing is logged and the funding call is not made. *)
Theorem join_outbox_of_wrong_size_fails :
  length (outbox joined) ≠ 1%nat → length (outbox joined) ≠ 2%nat →
  inputStateChannelMessage message s =
    (Thrown (JsError "Expected one or two outbox items after joining channel"),
     {| wallet := w2;
        cachedState := assign (cachedState s) (channelId cr) (Some cr);
        calls := (calls s ++ [CallPushMessage (data message)]) ++ [CallJoinChannel cr];
        infos := infos s |}).
Proof.
  intros Hn1 Hn2. step_run. rewrite Hpush, Hfirst. simpl.
  rewrite Hproposed, Hempty. simpl. rewrite Hjoin. simpl.
  apply Nat.eqb_neq in Hn1, Hn2. by rewrite Hn1, Hn2.
Qed.

Variables (item0 : OutboxItem) (more : list OutboxItem).
Hypothesis Hitems : outbox joined = item0 :: more.
Hypothesis Hmore : (length more ≤ 1)%nat.

(** X9.  A proposed channel without any allocation makes the join branch
    throw a [TypeError], after the join was made and its success logged;
    the funding call is not made. *)
Theorem join_without_allocation_fails :
  allocations cr = [] →
  inputStateChannelMessage message s =
    (Thrown TypeError, afterJoin s (data message) w2 cr).
Proof.
  intros Hnone. step_run. rewrite Hpush, Hfirst. simpl.
  rewrite Hproposed, Hempty. simpl. rewrite Hjoin. simpl.
  rewrite Hitems, Hnone.
  by destruct more as [|item1 [|]]; simpl in *; [| |lia].
Qed.

Variables (allocation0 : Allocation) (others : list Allocation).
Hypothesis Hallocs : allocations cr = allocation0 :: others.

(** X10.  With two outbox items and a zero total, the shortcut still needs
    the second item to carry a payload: without one the funding call is
    made, with amount 0. *)
Theorem shortcut_needs_payload item1 r w3 :
  more = [item1] → params item1 = None →
  totalOf (allocationItems allocation0) = 0%N →
  updateChannelFunding w2 (channelId cr) (token allocation0) 0 = (r, w3) →
  inputStateChannelMessage message s =
    (match r with
     | Thrown e => Thrown e
     | Returned funded =>
         match outbox funded !! 0%nat with
         | None => Thrown TypeError
         | Some item => joinReply (params item0) (params item)
         end
     end,
     afterFunding s (data message) w3 cr (token allocation0) 0).
Proof.
  intros Hone Hpayload Hzero Hfund.
  assert (zeroFundPostFund2State (outbox joined)
            (totalOf (allocationItems allocation0)) = None) as Hcut.
  { unfold zeroFundPostFund2State. rewrite Hitems, Hone, Hzero. by simpl. }
  rewrite <- Hzero in Hfund.
  rewrite (run_join_funding _ _ _ _ Hpush _ Hfirst Hproposed Hempty _ _ Hjoin
             _ _ Hitems Hmore _ _ Hallocs _ _ Hcut Hfund).
  by rewrite Hzero.
Qed.

(** X11.  A channel whose first allocation does not sum to zero is always
    funded explicitly, with the first allocation's token and total, also
    when the join produced two outbox items: the second one is not read. *)
Theorem paid_channel_is_funded r w3 :
  totalOf (allocationItems allocation0) ≠ 0%N →
  updateChannelFunding w2 (channelId cr) (token allocation0)
    (totalOf (allocationItems allocation0)) = (r, w3) →
  inputStateChannelMessage message s =
    (match r with
     | Thrown e => Thrown e
     | Returned funded =>
         match outbox funded !! 0%nat with
         | None => Thrown TypeError
         | Some item => joinReply (params item0) (params item)
         end
     end,
     afterFunding s (data message) w3 cr (token allocation0)
       (totalOf (allocationItems allocation0))).
Proof.
  intros Hpaid Hfund.
  assert (zeroFundPostFund2State (outbox joined)
            (totalOf (allocationItems allocation0)) = None) as Hcut.
  { unfold zeroFundPostFund2State. apply N.eqb_neq in Hpaid. rewrite Hpaid.
    by rewrite andb_false_r. }
  exact (run_join_funding _ _ _ _ Hpush _ Hfirst Hproposed Hempty _ _ Hjoin
           _ _ Hitems Hmore _ _ Hallocs _ _ Hcut Hfund).
Qed.

End IngestionFailures.

(** ** The total of an allocation *)

Lemma fold_left_add_from (l : list N) (a : N) :
  fold_left N.add l a = (a + fold_left N.add l 0)%N.
Proof.
  revert a. induction l as [|x l IH]; intros a; simpl.
  - lia.
  - rewrite (IH (a + x)%N), (IH (0 + x)%N). lia.
Qed.

Lemma totalOf_cons (item : AllocationItem) (items : list AllocationItem) :
  totalOf (item :: items) = (amount item + totalOf items)%N.
Proof. unfold totalOf. simpl. by rewrite fold_left_add_from. Qed.

(** X12.  The total of an allocation is zero exactly when every item has
    amount zero; an allocation without items counts as free. *)
Theorem totalOf_zero_iff (items : list AllocationItem) :
  totalOf items = 0%N ↔ Forall (fun item => amount item = 0%N) items.
Proof.
  induction items as [|item items IH].
  - split; [constructor|done].
  - rewrite totalOf_cons, Forall_cons, <- IH. lia.
Qed.

(** X13.  The total does not depend on the order of the items, and the
    total of two lists of items put together is the sum of their totals. *)
Theorem totalOf_order_and_append (items items' : list AllocationItem) :
  (items ≡ₚ items' → totalOf items = totalOf items') ∧
  totalOf (items ++ items') = (totalOf items + totalOf items')%N.
Proof.
  split.
  - induction 1 as [|x l l' _ IH|x y l|l l' l'' _ IH1 _ IH2].
    + done.
    + by rewrite !totalOf_cons, IH.
    + rewrite !totalOf_cons. lia.
    + by rewrite IH1.
  - induction items as [|item items IH]; simpl.
    + unfold totalOf at 2. simpl. lia.
    + rewrite !totalOf_cons, IH. lia.
Qed.

(** * Further properties of resolution and settlement *)

Section ResolutionAndSettlement.
Context {W : Type} `{Wallet W} `{Pure} `{Schema}.
Implicit Types (s : ReceiptManager W) (id : string).

(** X14.  The first resolution of an identifier that the cache reads as
    falsy and the wallet knows fetches it once and caches it; the [n]
    resolutions that follow are answered from the cache. *)
Theorem first_resolution_fetches_once s id r cr w' n :
  readCache (cachedState s) id = None →
  getState (wallet s) id = (Returned r, w') →
  channelResult r = Some cr →
  resolveTimes (S n) id s =
    (Returned (replicate (S n) (Result cr)),
     {| wallet := w'; cachedState := assign (cachedState s) id (Some cr);
        calls := calls s ++ [CallGetState id]; infos := infos s |}).
Proof.
  intros Hmiss Hget Hsome.
  set (s1 := {| wallet := w'; cachedState := assign (cachedState s) id (Some cr);
                calls := calls s ++ [CallGetState id]; infos := infos s |}).
  assert (getChannelResult id s = (Returned (Result cr), s1)) as Hres.
  { unfold getChannelResult, bind.
    by rewrite (getChannelState_miss _ _ _ _ Hmiss Hget), Hsome. }
  simpl. unfold bind at 1. rewrite Hres.
  unfold bind. rewrite (resolveTimes_hit n s1 id (Result cr)); [done|].
  apply readCache_assign.
Qed.

(** X15.  A failed resolution is not remembered as a failure: the key is
    left as an own property holding [undefined], and the next resolution
    asks the wallet again and returns what it then answers. *)
Theorem failed_resolution_is_retried s id r w1 r' w2 :
  readCache (cachedState s) id = None →
  getState (wallet s) id = (Returned r, w1) →
  channelResult r = None →
  getState w1 id = (Returned r', w2) →
  ∃ s1,
    getChannelResult id s = (Thrown (ChannelNotFound id), s1) ∧
    own (cachedState s1) !! id = Some None ∧
    fst (getChannelState id s1) = Returned (Result <$> channelResult r') ∧
    calls (snd (getChannelState id s1)) = (calls s ++ [CallGetState id; CallGetState id])%list.
Proof.
  intros Hmiss Hget Hnone Hget'.
  assert (readCache (assign (cachedState s) id None) id = None) as Hagain.
  { by rewrite readCache_assign_miss. }
  eexists. split; [|split; [|split]].
  - unfold getChannelResult, bind.
    rewrite (getChannelState_miss _ _ _ _ Hmiss Hget), Hnone. reflexivity.
  - simpl. apply own_assign_ordinary. by apply (readCache_falsy_ordinary (cachedState s)).
  - by rewrite (getChannelState_miss _ _ r' w2).
  - rewrite (getChannelState_miss _ _ r' w2); [|done|done].
    simpl. by rewrite <- app_assoc.
Qed.

(** X16.  Resolving any identifier never changes an entry that holds a
    channel result, be it the entry of that identifier or of another. *)
Theorem resolution_preserves_resolved_entries s id (k : string) cr :
  readCache (cachedState s) k = Some (Result cr) →
  readCache (cachedState (snd (getChannelState id s))) k = Some (Result cr).
Proof.
  intros Hk. destruct (decide (k = id)) as [->|Hne].
  - by rewrite (getChannelState_hit _ _ _ Hk).
  - rewrite (touches_getChannelState id s k Hne). exact Hk.
Qed.

(** X17.  After an ingestion that yielded a channel result, whatever the
    outcome of the run, that result is resolved from the cache without a
    call to the wallet. *)
Theorem ingested_channel_is_resolvable s message pushed w1 cr :
  pushMessage (wallet s) (data message) = (Returned pushed, w1) →
  channelResults pushed !! 0%nat = Some cr →
  getChannelResult (channelId cr) (snd (inputStateChannelMessage message s))
    = (Returned (Result cr), snd (inputStateChannelMessage message s)).
Proof.
  intros Hpush Hfirst. apply getChannelResult_hit.
  rewrite inputStateChannelMessage_cache, Hpush, Hfirst.
  apply readCache_assign.
Qed.

(** X18.  When the derived identifier is cached, [getExistingChannelId]
    returns it and leaves the manager as it is: the wallet is not called. *)
Theorem getExistingChannelId_cached s message id cr :
  derivedId message = Some id →
  readCache (cachedState s) id = Some (Result cr) →
  getExistingChannelId message s = (Returned (Some id), s).
Proof.
  unfold derivedId, getExistingChannelId. intros Hid Hhit.
  unfold bind, liftPure.
  destruct (calculateChannelId _) as [id'|e]; [|done].
  injection Hid as ->. by rewrite (getChannelResult_hit _ _ _ Hhit).
Qed.

(** X19.  When the derived identifier reads as falsy in the cache and the
    wallet knows the channel, [getExistingChannelId] returns the identifier
    after one fetch and leaves the channel result in the cache. *)
Theorem getExistingChannelId_fetched s message id r cr w' :
  derivedId message = Some id →
  readCache (cachedState s) id = None →
  getState (wallet s) id = (Returned r, w') →
  channelResult r = Some cr →
  getExistingChannelId message s =
    (Returned (Some id),
     {| wallet := w'; cachedState := assign (cachedState s) id (Some cr);
        calls := calls s ++ [CallGetState id]; infos := infos s |}).
Proof.
  unfold derivedId, getExistingChannelId. intros Hid Hmiss Hget Hsome.
  unfold bind, liftPure.
  destruct (calculateChannelId _) as [id'|e]; [|done].
  injection Hid as ->. unfold getChannelResult, bind.
  by rewrite (getChannelState_miss _ _ _ _ Hmiss Hget), Hsome.
Qed.

(** X20.  When [calculateChannelId] throws on the object spread from the
    first state, [getExistingChannelId] rethrows what it threw and touches
    neither the cache nor the wallet. *)
Theorem getExistingChannelId_underivable s message e :
  calculateChannelId (spreadFirstState message) = Thrown e →
  getExistingChannelId message s = (Thrown e, s).
Proof.
  unfold spreadFirstState, getExistingChannelId, bind, liftPure.
  by intros ->.
Qed.

(** X21.  Settlement on a channel that the cache reads as falsy and the
    wallet does not know fails with "No channel result for channelId ...":
    the next state is not computed, the wallet's update is not called, and
    the only call made is the fetch. *)
Theorem settlement_of_unknown_channel_fails s id att r w' :
  readCache (cachedState s) id = None →
  getState (wallet s) id = (Returned r, w') →
  channelResult r = None →
  let s1 := {| wallet := w'; cachedState := assign (cachedState s) id None;
               calls := calls s ++ [CallGetState id]; infos := infos s |} in
  provideAttestation id att s = (Thrown (ChannelNotFound id), s1) ∧
  declineQuery id s = (Thrown (ChannelNotFound id), s1).
Proof.
  intros Hmiss Hget Hnone s1.
  assert (getChannelResult id s = (Thrown (ChannelNotFound id), s1)) as Hres.
  { unfold getChannelResult, bind.
    by rewrite (getChannelState_miss _ _ _ _ Hmiss Hget), Hnone. }
  split; by apply run_nextState_unresolved.
Qed.

(** X22.  When [computeNextState] throws, settlement rethrows it and stops
    before the wallet's update: the manager is as the resolution left it. *)
Theorem settlement_stops_when_transition_fails st id att s resolved s1 e :
  getChannelResult id s = (Returned resolved, s1) →
  computeNextState (entryAppData resolved) (entryAllocations resolved)
    {| toStateType := st; queryRequestCID := "";
       attestation := inputAttestation att |} = Thrown e →
  nextState st id att s = (Thrown e, s1).
Proof.
  intros Hres Hnext. unfold nextState, bind at 1. rewrite Hres.
  unfold bind at 1, liftPure at 1. by rewrite Hnext.
Qed.

(** X23.  When the wallet answers the update with an empty outbox,
    settlement throws a [TypeError] and the cache keeps the channel result
    it held before, not the one the wallet returned with the update; the
    same holds when the wallet rejects the update. *)
Theorem failed_update_leaves_cache st id att s resolved s1 next r w' :
  getChannelResult id s = (Returned resolved, s1) →
  computeNextState (entryAppData resolved) (entryAllocations resolved)
    {| toStateType := st; queryRequestCID := "";
       attestation := inputAttestation att |} = Returned next →
  updateChannel (wallet s1) id (nextAppData next) (nextAllocation next) = (r, w') →
  match r with Returned updated => outbox updated = [] | Thrown _ => True end →
  fst (nextState st id att s)
    = match r with Returned _ => Thrown TypeError | Thrown e => Thrown e end ∧
  cachedState (snd (nextState st id att s)) = cachedState s1 ∧
  readCache (cachedState (snd (nextState st id att s))) id = Some resolved.
Proof.
  intros Hres Hnext Hupd Hfail.
  rewrite (run_nextState _ _ _ _ _ _ _ _ _ Hres Hnext Hupd).
  assert (readCache (cachedState s1) id = Some resolved) as Hcached.
  { unfold getChannelResult, bind in Hres.
    destruct (getChannelState id s) as [[[c|]|e] s'] eqn:Hstate; try done.
    injection Hres as -> ->. by apply (getChannelState_cached _ _ _ _ Hstate). }
  unfold afterUpdate. destruct r as [updated|e]; [|done].
  by rewrite Hfail.
Qed.

(** X24.  After a settlement that succeeded, the channel result the wallet
    returned with the update is the one resolved next, from the cache and
    without a fetch. *)
Theorem settled_channel_is_resolvable st id att s resolved s1 next updated w' item rest cr' :
  getChannelResult id s = (Returned resolved, s1) →
  computeNextState (entryAppData resolved) (entryAllocations resolved)
    {| toStateType := st; queryRequestCID := "";
       attestation := inputAttestation att |} = Returned next →
  updateChannel (wallet s1) id (nextAppData next) (nextAllocation next)
    = (Returned updated, w') →
  outbox updated = item :: rest →
  channelResult updated = Some cr' →
  fst (nextState st id att s) = Returned (params item) ∧
  getChannelResult id (snd (nextState st id att s))
    = (Returned (Result cr'), snd (nextState st id att s)).
Proof.
  intros Hres Hnext Hupd Hout Hnew.
  rewrite (run_nextState _ _ _ _ _ _ _ _ _ Hres Hnext Hupd).
  unfold afterUpdate. rewrite Hout. simpl. split; [done|].
  apply getChannelResult_hit. simpl. rewrite Hnew. apply readCache_assign.
Qed.

End ResolutionAndSettlement.

(** * What the operations never do *)

Section Footprint.
Context {W : Type} `{Wallet W} `{Pure} `{Schema}.
Implicit Types (s : ReceiptManager W) (id : string).

Lemma grows_keeps {A} (m : M W A) : keepsCache m → cacheGrows m.
Proof. intros Hm s k Hk. by rewrite Hm. Qed.

Lemma grows_setCache id v : cacheGrows (W := W) (setCache id v).
Proof. intros s k Hk. simpl. by apply own_assign_grows. Qed.

Lemma grows_bind {A B} (m : M W A) (k : A → M W B) :
  cacheGrows m → (∀ a, cacheGrows (k a)) → cacheGrows (bind m k).
Proof.
  intros Hm Hk s j Hj. unfold bind. specialize (Hm s j Hj).
  destruct (m s) as [[a|e] s1]; simpl in *; [|done].
  by apply Hk.
Qed.

Lemma grows_getChannelResult id : cacheGrows (getChannelResult id).
Proof.
  unfold getChannelResult, getChannelState.
  apply grows_bind; [|intros [cr|]; apply grows_keeps; by intros s].
  apply grows_bind; [by apply grows_keeps|intros c].
  apply grows_bind; [|intros _; by apply grows_keeps, keeps_bind].
  destruct (readCache c id).
  - apply grows_keeps, keeps_ret.
  - apply grows_bind; [apply grows_keeps, keeps_callWallet|intros r].
    apply grows_setCache.
Qed.

Lemma grows_nextState st id att : cacheGrows (nextState st id att).
Proof.
  unfold nextState.
  apply grows_bind; [apply grows_getChannelResult|intros current].
  apply grows_bind; [apply grows_keeps, keeps_liftPure|intros next].
  apply grows_bind; [apply grows_keeps, keeps_callWallet|intros updated].
  destruct (outbox updated !! 0%nat).
  - apply grows_bind; [apply grows_setCache|intros _].
    apply grows_keeps, keeps_ret.
  - apply grows_keeps, keeps_throw.
Qed.

(** X25.  No public operation removes an own key from the cache, the key
    it writes included: the cache only grows. *)
Theorem cache_never_shrinks s message id att :
  dom (own (cachedState s))
    ⊆ dom (own (cachedState (snd (inputStateChannelMessage message s)))) ∧
  dom (own (cachedState s)) ⊆ dom (own (cachedState (snd (provideAttestation id att s)))) ∧
  dom (own (cachedState s)) ⊆ dom (own (cachedState (snd (declineQuery id s)))) ∧
  dom (own (cachedState s))
    ⊆ dom (own (cachedState (snd (getExistingChannelId message s)))).
Proof.
  split; [|split; [|split]]; intros k; rewrite !elem_of_dom.
  - rewrite inputStateChannelMessage_cache.
    destruct (pushMessage (wallet s) (data message)) as [[pushed|e] w1]; [|done].
    destruct (channelResults pushed !! 0%nat) as [cr|]; [|done].
    apply own_assign_grows.
  - apply grows_nextState.
  - apply grows_nextState.
  - unfold getExistingChannelId.
    apply grows_bind; [apply grows_keeps, keeps_liftPure|intros i].
    apply grows_bind; [apply grows_keeps, keeps_liftPure|intros i'].
    apply grows_bind; [apply grows_getChannelResult|intros r].
    apply grows_keeps, keeps_ret.
Qed.

(** X26.  [inputStateChannelMessage] calls the wallet at most three times:
    the ingestion first, then possibly the join, then possibly the funding
    of the joined channel.  It never fetches a state and never updates a
    channel. *)
Theorem lifecycle_wallet_calls s message :
  ∃ l, calls (snd (inputStateChannelMessage message s))
         = (calls s ++ CallPushMessage (data message) :: l)%list ∧
       (l = [] ∨
        (∃ cr, l = [CallJoinChannel cr]) ∨
        (∃ cr tok amt,
           l = [CallJoinChannel cr; CallUpdateChannelFunding (channelId cr) tok amt])).
Proof.
  step_run.
  destruct (pushMessage (wallet s) (data message)) as [[pushed|e] w1]; simpl;
    [|exists []; by split; [|left]].
  destruct (channelResults pushed !! 0%nat) as [cr|]; simpl;
    [|exists []; by split; [|left]].
  destruct (ChannelStatus_eqb (status cr) proposed
            && (length (multiOutbox pushed) =? 0)%nat); simpl.
  - destruct (joinChannel w1 cr) as [[joined|e] w2]; simpl;
      [|exists [CallJoinChannel cr]; rewrite <- app_assoc; split; [done|right; left; eauto]].
    destruct (negb (length (outbox joined) =? 1)%nat
              && negb (length (outbox joined) =? 2)%nat); simpl;
      [exists [CallJoinChannel cr]; rewrite <- app_assoc; split; [done|right; left; eauto]|].
    destruct (outbox joined !! 0%nat) as [item0|]; simpl;
      [|exists [CallJoinChannel cr]; rewrite <- app_assoc; split; [done|right; left; eauto]].
    destruct (allocations cr !! 0%nat) as [allocation0|]; simpl;
      [|exists [CallJoinChannel cr]; rewrite <- app_assoc; split; [done|right; left; eauto]].
    destruct (zeroFundPostFund2State _ _); simpl;
      [exists [CallJoinChannel cr]; rewrite <- app_assoc; split; [done|right; left; eauto]|].
    exists [CallJoinChannel cr;
            CallUpdateChannelFunding (channelId cr) (token allocation0)
              (totalOf (allocationItems allocation0))].
    split; [|right; right; eauto].
    destruct (updateChannelFunding _ _ _ _) as [[funded|e] w3]; simpl;
      [destruct (outbox funded !! 0%nat)|]; simpl; by rewrite <- !app_assoc.
  - exists []. split; [|by left].
    destruct (ChannelStatus_eqb (status cr) running
              && (length (multiOutbox pushed) =? 0)%nat); simpl; [done|].
    destruct (ChannelStatus_eqb (status cr) closed
              && (length (multiOutbox pushed) =? 1)%nat); simpl; [|done].
    by destruct (multiOutbox pushed !! 0%nat).
Qed.

(** X27.  Settlement calls the wallet at most twice, for the channel it is
    given: possibly a fetch of its state, then possibly one update.  It
    never ingests a message, joins or funds a channel. *)
Theorem settlement_wallet_calls st id att s :
  ∃ l, calls (snd (nextState st id att s)) = (calls s ++ l)%list ∧
       (l = [] ∨ l = [CallGetState id] ∨
        (∃ app allocs, l = [CallUpdateChannel id app allocs]) ∨
        (∃ app allocs, l = [CallGetState id; CallUpdateChannel id app allocs])).
Proof.
  assert (∃ l0, calls (snd (getChannelResult id s)) = (calls s ++ l0)%list ∧
                (l0 = [] ∨ l0 = [CallGetState id])) as (l0 & Hcalls & Hl0).
  { destruct (readCache (cachedState s) id) as [cr|] eqn:Hc.
    - rewrite (getChannelResult_hit _ _ _ Hc). exists []. rewrite app_nil_r. eauto.
    - exists [CallGetState id]. split; [|by right].
      unfold getChannelResult, bind.
      destruct (getState (wallet s) id) as [[got|e] w'] eqn:Hget.
      + rewrite (getChannelState_miss _ _ _ _ Hc Hget).
        by destruct (channelResult got).
      + by rewrite (getChannelState_rejected _ _ _ _ Hc Hget). }
  unfold nextState, bind at 1.
  destruct (getChannelResult id s) as [[cr|e] s1]; simpl in *;
    [|exists l0; split; [done|destruct Hl0; eauto]].
  unfold bind at 1, liftPure at 1.
  destruct (computeNextState _ _ _) as [next|e]; simpl;
    [|exists l0; split; [done|destruct Hl0; eauto]].
  exists (l0 ++ [CallUpdateChannel id (nextAppData next) (nextAllocation next)])%list.
  split.
  - unfold bind, callWallet.
    destruct (updateChannel _ _ _ _) as [[updated|e] w']; simpl;
      [destruct (outbox updated !! 0%nat)|]; simpl; by rewrite Hcalls, <- app_assoc.
  - destruct Hl0 as [->| ->]; simpl; eauto 6.
Qed.

End Footprint.

(** * The further properties on concrete inputs *)

Lemma ingestion_rejection_propagates_witness :
  inputStateChannelMessage inbound (fresh deafWallet) =
    (Thrown (Rejected "not scripted"),
     {| wallet := deafWallet; cachedState := emptyCache;
        calls := [CallPushMessage (data inbound)]; infos := [] |}).
Proof.
  exact (ingestion_rejection_propagates (fresh deafWallet) inbound
           (Rejected "not scripted") deafWallet eq_refl).
Defined.

Lemma ingestion_without_result_fails_witness :
  inputStateChannelMessage inbound (fresh idleWallet) =
    (Thrown (JsError "Received a new state that did nothing"),
     {| wallet := idleWallet; cachedState := emptyCache;
        calls := [CallPushMessage (data inbound)]; infos := [] |}).
Proof.
  exact (ingestion_without_result_fails (fresh idleWallet) inbound
           {| channelResults := []; multiOutbox := [itemOf state0] |} idleWallet
           eq_refl eq_refl).
Defined.

Lemma acknowledgement_is_silent_witness :
  inputStateChannelMessage inbound (fresh acknowledgingWallet) =
    (Returned None,
     {| wallet := acknowledgingWallet;
        cachedState := assign emptyCache "1/payer/indexer" (Some runningChannel);
        calls := [CallPushMessage (data inbound)]; infos := [] |}).
Proof.
  exact (acknowledgement_is_silent (fresh acknowledgingWallet) inbound
           (pushedOf runningChannel []) acknowledgingWallet eq_refl
           runningChannel eq_refl eq_refl eq_refl).
Defined.

Lemma unhandled_status_is_rejected_witness :
  inputStateChannelMessage inbound (fresh fundingStatusWallet) =
    (Thrown UnrecognizedProtocolTransition,
     ingested (fresh fundingStatusWallet) (data inbound) fundingStatusWallet
       fundingChannel).
Proof.
  pose proof (unhandled_status_is_rejected (fresh fundingStatusWallet) inbound
           (pushedOf fundingChannel [itemOf state0]) fundingStatusWallet eq_refl
           fundingChannel eq_refl) as Hw.
  apply Hw; discriminate.
Defined.

Lemma proposal_with_outbox_is_not_joined_witness :
  inputStateChannelMessage inbound (fresh strayWallet) =
    (Thrown UnrecognizedProtocolTransition,
     ingested (fresh strayWallet) (data inbound) strayWallet freeChannel).
Proof.
  pose proof (proposal_with_outbox_is_not_joined (fresh strayWallet) inbound
           (pushedOf freeChannel [itemOf state0]) strayWallet eq_refl
           freeChannel eq_refl eq_refl) as Hw.
  apply Hw; discriminate.
Defined.

Lemma closure_needs_one_outbox_item_witness :
  inputStateChannelMessage inbound (fresh closedSilentWallet) =
    (Thrown UnrecognizedProtocolTransition,
     ingested (fresh closedSilentWallet) (data inbound) closedSilentWallet
       closedChannel).
Proof.
  pose proof (closure_needs_one_outbox_item (fresh closedSilentWallet) inbound
           (pushedOf closedChannel []) closedSilentWallet eq_refl
           closedChannel eq_refl eq_refl) as Hw.
  apply Hw; discriminate.
Defined.

Lemma join_rejection_keeps_cache_witness :
  inputStateChannelMessage inbound (fresh unjoinableWallet) =
    (Thrown (Rejected "not scripted"),
     {| wallet := unjoinableWallet;
        cachedState := assign emptyCache "1/payer/indexer" (Some freeChannel);
        calls := [CallPushMessage (data inbound); CallJoinChannel freeChannel];
        infos := [] |}).
Proof.
  exact (join_rejection_keeps_cache (fresh unjoinableWallet) inbound
           (pushedOf freeChannel []) unjoinableWallet eq_refl
           freeChannel eq_refl eq_refl eq_refl
           (Rejected "not scripted") unjoinableWallet eq_refl).
Defined.

Lemma join_outbox_of_wrong_size_fails_witness :
  inputStateChannelMessage inbound (fresh emptyJoinWallet) =
    (Thrown (JsError "Expected one or two outbox items after joining channel"),
     {| wallet := emptyJoinWallet;
        cachedState := assign emptyCache "1/payer/indexer" (Some freeChannel);
        calls := [CallPushMessage (data inbound); CallJoinChannel freeChannel];
        infos := [] |}).
Proof.
  pose proof (join_outbox_of_wrong_size_fails (fresh emptyJoinWallet) inbound
           (pushedOf freeChannel []) emptyJoinWallet eq_refl
           freeChannel eq_refl eq_refl eq_refl
           (joinedOf freeChannel []) emptyJoinWallet eq_refl) as Hw.
  apply Hw; discriminate.
Defined.

Lemma join_without_allocation_fails_witness :
  inputStateChannelMessage inbound (fresh bareWallet) =
    (Thrown TypeError, afterJoin (fresh bareWallet) (data inbound) bareWallet bareChannel).
Proof.
  exact (join_without_allocation_fails (fresh bareWallet) inbound
           (pushedOf bareChannel []) bareWallet eq_refl
           bareChannel eq_refl eq_refl eq_refl
           (joinedOf bareChannel [itemOf state0]) bareWallet eq_refl
           (itemOf state0) [] eq_refl (Nat.le_0_l 1) eq_refl).
Defined.

Lemma shortcut_needs_payload_witness :
  inputStateChannelMessage inbound (fresh hollowShortcutWallet) =
    (joinReply (params (itemOf state0)) (params (itemOf state3)),
     afterFunding (fresh hollowShortcutWallet) (data inbound) hollowShortcutWallet
       freeChannel "0xtok" 0).
Proof.
  exact (shortcut_needs_payload (fresh hollowShortcutWallet) inbound
           (pushedOf freeChannel []) hollowShortcutWallet eq_refl
           freeChannel eq_refl eq_refl eq_refl
           (joinedOf freeChannel [itemOf state0; hollowItem]) hollowShortcutWallet
           eq_refl (itemOf state0) [hollowItem] eq_refl (Nat.le_refl 1)
           (alloc "0xtok" [0; 0]%N) [] eq_refl hollowItem
           (Returned {| channelResult := Some freeChannel; outbox := [itemOf state3] |})
           hollowShortcutWallet eq_refl eq_refl eq_refl eq_refl).
Defined.

Lemma paid_channel_is_funded_witness :
  inputStateChannelMessage inbound (fresh paidTwoItemsWallet) =
    (joinReply (params (itemOf state0)) (params (itemOf state3)),
     afterFunding (fresh paidTwoItemsWallet) (data inbound) paidTwoItemsWallet
       paidChannel "0xtok" 5).
Proof.
  pose proof (paid_channel_is_funded (fresh paidTwoItemsWallet) inbound
           (pushedOf paidChannel []) paidTwoItemsWallet eq_refl
           paidChannel eq_refl eq_refl eq_refl
           (joinedOf paidChannel [itemOf state0; itemOf finalState]) paidTwoItemsWallet
           eq_refl (itemOf state0) [itemOf finalState] eq_refl (Nat.le_refl 1)
           (alloc "0xtok" [5; 0]%N) [] eq_refl
           (Returned {| channelResult := Some paidChannel; outbox := [itemOf state3] |})
           paidTwoItemsWallet) as Hw.
  apply Hw; [discriminate|reflexivity].
Defined.

Lemma totalOf_order_and_append_witness :
  totalOf [{| destination := "a"; amount := 5 |}; {| destination := "b"; amount := 2 |}]
    = totalOf [{| destination := "b"; amount := 2 |}; {| destination := "a"; amount := 5 |}].
Proof.
  apply (proj1 (totalOf_order_and_append
                  [{| destination := "a"; amount := 5 |}; {| destination := "b"; amount := 2 |}]
                  [{| destination := "b"; amount := 2 |}; {| destination := "a"; amount := 5 |}])).
  apply Permutation_swap.
Defined.

Lemma first_resolution_fetches_once_witness :
  resolveTimes 3 "1/payer/indexer" (fresh (knowingWallet runningChannel)) =
    (Returned [Result runningChannel; Result runningChannel; Result runningChannel],
     {| wallet := knowingWallet runningChannel;
        cachedState := assign emptyCache "1/payer/indexer" (Some runningChannel);
        calls := [CallGetState "1/payer/indexer"]; infos := [] |}).
Proof.
  exact (first_resolution_fetches_once (fresh (knowingWallet runningChannel))
           "1/payer/indexer" {| channelResult := Some runningChannel; outbox := [] |}
           runningChannel (knowingWallet runningChannel) 2 eq_refl eq_refl eq_refl).
Defined.

Lemma failed_resolution_is_retried_witness :
  ∃ s1,
    getChannelResult "1/payer/indexer" unknownManager
      = (Thrown (ChannelNotFound "1/payer/indexer"), s1) ∧
    own (cachedState s1) !! "1/payer/indexer" = Some None ∧
    fst (getChannelState "1/payer/indexer" s1) = Returned None ∧
    calls (snd (getChannelState "1/payer/indexer" s1))
      = [CallGetState "1/payer/indexer"; CallGetState "1/payer/indexer"].
Proof.
  exact (failed_resolution_is_retried unknownManager "1/payer/indexer"
           {| channelResult := None; outbox := [] |} (wallet unknownManager)
           {| channelResult := None; outbox := [] |} (wallet unknownManager)
           eq_refl eq_refl eq_refl eq_refl).
Defined.

Lemma resolution_preserves_resolved_entries_witness :
  readCache (cachedState (snd (getChannelState "elsewhere" proposedManager)))
    "1/payer/indexer" = Some (Result freeChannel).
Proof.
  exact (resolution_preserves_resolved_entries proposedManager "elsewhere"
           "1/payer/indexer" freeChannel eq_refl).
Defined.

Lemma ingested_channel_is_resolvable_witness :
  getChannelResult "1/payer/indexer"
      (snd (inputStateChannelMessage inbound (fresh strayWallet)))
    = (Returned (Result freeChannel),
       snd (inputStateChannelMessage inbound (fresh strayWallet))).
Proof.
  exact (ingested_channel_is_resolvable (fresh strayWallet) inbound
           (pushedOf freeChannel [itemOf state0]) strayWallet freeChannel
           eq_refl eq_refl).
Defined.

Lemma getExistingChannelId_cached_witness :
  getExistingChannelId statesMessage proposedManager
    = (Returned (Some "1/payer/indexer"), proposedManager).
Proof.
  exact (getExistingChannelId_cached proposedManager statesMessage
           "1/payer/indexer" freeChannel eq_refl eq_refl).
Defined.

Lemma getExistingChannelId_fetched_witness :
  getExistingChannelId statesMessage (fresh (knowingWallet runningChannel)) =
    (Returned (Some "1/payer/indexer"),
     {| wallet := knowingWallet runningChannel;
        cachedState := assign emptyCache "1/payer/indexer" (Some runningChannel);
        calls := [CallGetState "1/payer/indexer"]; infos := [] |}).
Proof.
  exact (getExistingChannelId_fetched (fresh (knowingWallet runningChannel))
           statesMessage "1/payer/indexer"
           {| channelResult := Some runningChannel; outbox := [] |}
           runningChannel (knowingWallet runningChannel)
           eq_refl eq_refl eq_refl eq_refl).
Defined.

Lemma getExistingChannelId_underivable_witness :
  getExistingChannelId inbound proposedManager = (Thrown TypeError, proposedManager).
Proof.
  exact (getExistingChannelId_underivable proposedManager inbound TypeError eq_refl).
Defined.

Lemma settlement_of_unknown_channel_fails_witness :
  provideAttestation "1/payer/indexer" attestation0 unknownManager
    = (Thrown (ChannelNotFound "1/payer/indexer"),
       {| wallet := wallet unknownManager;
          cachedState := assign emptyCache "1/payer/indexer" None;
          calls := [CallGetState "1/payer/indexer"]; infos := [] |})
  ∧ declineQuery "1/payer/indexer" unknownManager
    = (Thrown (ChannelNotFound "1/payer/indexer"),
       {| wallet := wallet unknownManager;
          cachedState := assign emptyCache "1/payer/indexer" None;
          calls := [CallGetState "1/payer/indexer"]; infos := [] |}).
Proof.
  exact (settlement_of_unknown_channel_fails unknownManager "1/payer/indexer"
           attestation0 {| channelResult := None; outbox := [] |}
           (wallet unknownManager) eq_refl eq_refl eq_refl).
Defined.

Lemma settlement_stops_when_transition_fails_witness :
  @nextState Script scriptedWallet failingPure recordSchema AttestationProvided
      "1/payer/indexer" (Some attestation0) runningManager
    = (Thrown (Rejected "no transition"), runningManager).
Proof.
  exact (@settlement_stops_when_transition_fails Script scriptedWallet failingPure
           recordSchema AttestationProvided "1/payer/indexer" (Some attestation0)
           runningManager (Result runningChannel) runningManager
           (Rejected "no transition") eq_refl eq_refl).
Defined.

Lemma failed_update_leaves_cache_witness :
  fst (nextState QueryDeclined "1/payer/indexer" None
         (cached (muteWallet attestedChannel) runningChannel)) = Thrown TypeError ∧
  cachedState (snd (nextState QueryDeclined "1/payer/indexer" None
                      (cached (muteWallet attestedChannel) runningChannel)))
    = plainObject {[ "1/payer/indexer" := Some runningChannel ]} ∧
  readCache (cachedState (snd (nextState QueryDeclined "1/payer/indexer" None
                                 (cached (muteWallet attestedChannel) runningChannel))))
    "1/payer/indexer" = Some (Result runningChannel).
Proof.
  exact (failed_update_leaves_cache QueryDeclined "1/payer/indexer" None
           (cached (muteWallet attestedChannel) runningChannel) (Result runningChannel)
           (cached (muteWallet attestedChannel) runningChannel)
           {| nextAppData := ""; nextAllocation := allocations runningChannel |}
           (Returned {| channelResult := Some attestedChannel; outbox := [] |})
           (muteWallet attestedChannel) eq_refl eq_refl eq_refl eq_refl).
Defined.

Lemma settled_channel_is_resolvable_witness :
  fst (nextState AttestationProvided "1/payer/indexer" (Some attestation0) runningManager)
    = Returned (Some (wireOf state3)) ∧
  getChannelResult "1/payer/indexer"
      (snd (nextState AttestationProvided "1/payer/indexer" (Some attestation0)
              runningManager))
    = (Returned (Result attestedChannel),
       snd (nextState AttestationProvided "1/payer/indexer" (Some attestation0)
              runningManager)).
Proof.
  exact (settled_channel_is_resolvable AttestationProvided "1/payer/indexer"
           (Some attestation0) runningManager (Result runningChannel) runningManager
           {| nextAppData := "Qm123"; nextAllocation := allocations runningChannel |}
           {| channelResult := Some attestedChannel; outbox := [itemOf state3] |}
           (wallet runningManager) (itemOf state3) [] attestedChannel
           eq_refl eq_refl eq_refl eq_refl eq_refl).
Defined.
